(** * iSCSI connection lifecycle of the Storwize/SVC volume driver

    A shallow embedding of
    [cinder/volume/drivers/ibm/storwize_svc/storwize_svc_iscsi.py]
    (class [StorwizeSVCISCSIDriver]) and the properties of its four
    operations: [do_setup], [validate_connector], [initialize_connection]
    and [terminate_connection].

    The driver talks to the storage controller through [self._helpers]
    and inherits [do_setup] and [_get_vdisk_params] from the common
    driver.  Those collaborators live outside the file, so they are an
    interface here (record [Helpers]): every theorem that is not a
    concrete evaluation holds for all implementations of it.  Python
    dictionaries with string keys are [gmap string _]; the node
    inventory, whose iteration order decides the fallback node, is an
    association list in iteration order.  Exceptions and the mutation of
    [self._state] and of the controller are threaded through a small
    state-and-error monad that also records, in program order, every
    [LOG] line and every collaborator call together with its outcome.

    The [utils.synchronized] decorators (cross-process locking) are
    outside the model. *)

From stdpp Require Import gmap strings list.
From Stdlib Require Import ZArith.

Open Scope string_scope.
Open Scope list_scope.

(** ** Data *)

(** The exceptions the driver raises or lets through.  [HelperFailure]
    stands for whatever a collaborator raises on its own (transport
    errors and the like). *)
Inductive exc :=
| VolumeDriverException (message : string)
| VolumeBackendAPIException (data : string)
| InvalidConnectorException (missing : string)
| KeyError (key : string)
| IndexError
| HelperFailure (what : string).

Inductive result (A : Type) :=
| Ok (a : A)
| Raise (e : exc).
Arguments Ok {A} a.
Arguments Raise {A} e.

(** One entry of [self._state['storage_nodes']]. *)
Record node := {
  id : string;
  name : string;
  IO_group : string;
  iscsi_name : string;
  ipv4 : list string;
  ipv6 : list string;
  enabled_protocols : list string
}.

(** [node['enabled_protocols'].append(p)] *)
Definition append_protocol (p : string) (n : node) : node :=
  {| id := id n; name := name n; IO_group := IO_group n;
     iscsi_name := iscsi_name n; ipv4 := ipv4 n; ipv6 := ipv6 n;
     enabled_protocols := enabled_protocols n ++ [p] |}.

(** The [volume] object handed over by the framework; the driver reads
    [volume['id']], [volume['name']] and [volume['volume_type_id']]. *)
Record volume := {
  vol_id : string;
  vol_name : string;
  volume_type_id : option string
}.

(** The connector and the [lsvdisk] attributes are dictionaries whose
    keys the driver tests and looks up. *)
Abbreviation connector := (gmap string string).
Abbreviation vdisk_attributes := (gmap string string).

(** Result of [_get_vdisk_params]; only ['protocol'] is read here. *)
Record vol_opts := { protocol : string }.

(** Values stored in the connection properties. *)
Inductive pval :=
| PBool (b : bool)
| PInt (z : Z)
| PStr (s : string).

Abbreviation properties := (gmap string pval).

(** Values of the dictionary both connection operations return. *)
Inductive ival :=
| IStr (s : string)
| IData (d : properties).

Abbreviation info := (gmap string ival).

(** The two options the driver reads from [self.configuration]. *)
Record config := {
  storwize_svc_iscsi_chap_enabled : bool;
  storwize_svc_multihostmap_enabled : bool
}.

(** [self.protocol] and the two entries of [self._state] the driver
    touches.  [storage_nodes] lists the dictionary's items in iteration
    order. *)
Record driver_state := {
  driver_protocol : string;
  storage_nodes : list (string * node);
  state_enabled_protocols : gset string
}.

(** ** Observable actions *)

Inductive level := DEBUG | INFO | WARNING | ERROR.

(** Arguments interpolated into a log line. *)
Inductive logarg :=
| AStr (s : string)
| AConn (c : connector)
| AVol (v : volume)
| AProps (p : properties)
| AExc (e : exc).

(** A call of a collaborator with the answer it gave. *)
Inductive call :=
| common_do_setup_call (r : result driver_state)
| get_vdisk_params_call (type_id : option string) (r : result vol_opts)
| get_node_info_call (r : result (list (string * node)))
| add_iscsi_ip_addrs_call (nodes : list (string * node))
    (r : result (list (string * node)))
| get_host_from_connector_call (c : connector) (r : result (option string))
| create_host_call (c : connector) (r : result string)
| get_chap_secret_for_host_call (host : string) (r : result (option string))
| add_chap_secret_to_host_call (host : string) (r : result string)
| get_vdisk_attributes_call (vol : string)
    (r : result (option vdisk_attributes))
| map_vol_to_host_call (vol host : string) (multihostmap : bool)
    (r : result Z)
| unmap_vol_from_host_call (vol : string) (host : option string)
    (r : result (option string))
| check_host_mapped_vols_call (host : string) (r : result (list string))
| delete_host_call (host : string) (r : result unit).

Inductive event :=
| ELog (lvl : level) (fmt : string) (args : list logarg)
| ECall (c : call).

(** ** The collaborator interface *)

(** What the driver consumes: the methods of [self._helpers] it calls,
    and the two methods it inherits from the common driver.  Each one is
    a transition of the controller state [B] that answers or raises.
    [add_iscsi_ip_addrs] fills the address lists of the inventory in
    place; it answers the inventory as it left it. *)
Record Helpers (B : Type) := {
  common_do_setup : driver_state -> B -> result driver_state * B;
  get_vdisk_params : option string -> B -> result vol_opts * B;
  get_node_info : B -> result (list (string * node)) * B;
  add_iscsi_ip_addrs :
    list (string * node) -> B -> result (list (string * node)) * B;
  get_host_from_connector : connector -> B -> result (option string) * B;
  create_host : connector -> B -> result string * B;
  get_chap_secret_for_host : string -> B -> result (option string) * B;
  add_chap_secret_to_host : string -> B -> result string * B;
  get_vdisk_attributes :
    string -> B -> result (option vdisk_attributes) * B;
  map_vol_to_host : string -> string -> bool -> B -> result Z * B;
  unmap_vol_from_host :
    string -> option string -> B -> result (option string) * B;
  check_host_mapped_vols : string -> B -> result (list string) * B;
  delete_host : string -> B -> result unit * B
}.
Arguments common_do_setup {B}.
Arguments get_vdisk_params {B}.
Arguments get_node_info {B}.
Arguments add_iscsi_ip_addrs {B}.
Arguments get_host_from_connector {B}.
Arguments create_host {B}.
Arguments get_chap_secret_for_host {B}.
Arguments add_chap_secret_to_host {B}.
Arguments get_vdisk_attributes {B}.
Arguments map_vol_to_host {B}.
Arguments unmap_vol_from_host {B}.
Arguments check_host_mapped_vols {B}.
Arguments delete_host {B}.

(** ** The monad *)

Record world (B : Type) := {
  backend : B;
  drv : driver_state;
  trace : list event
}.
Arguments backend {B}.
Arguments drv {B}.
Arguments trace {B}.

Definition M (B A : Type) : Type := world B -> result A * world B.

Definition ret {B A} (a : A) : M B A := fun w => (Ok a, w).

Definition bind {B A C} (m : M B A) (k : A -> M B C) : M B C :=
  fun w =>
    match m w with
    | (Ok a, w') => k a w'
    | (Raise e, w') => (Raise e, w')
    end.

Definition raise {B A} (e : exc) : M B A := fun w => (Raise e, w).

Notation "x <-- c ; k" := (bind c (fun x => k))
  (at level 200, c at level 100, k at level 200, right associativity,
   format "'[v' x  <--  c ; '/' k ']'").
Notation "c ;;; k" := (bind c (fun _ => k))
  (at level 200, k at level 200, right associativity,
   format "'[v' c  ;;; '/' k ']'").

Definition emit {B} (ev : event) : M B unit :=
  fun w =>
    (Ok tt, {| backend := backend w; drv := drv w;
               trace := trace w ++ [ev] |}).

(** [LOG.<lvl>(fmt, args)] *)
Definition LOG {B} (lvl : level) (fmt : string) (args : list logarg)
  : M B unit :=
  emit (ELog lvl fmt args).

(** Run a collaborator on the controller and record the call. *)
Definition invoke {B A} (c : result A -> call)
    (f : B -> result A * B) : M B A :=
  fun w =>
    let (r, b) := f (backend w) in
    (r, {| backend := b; drv := drv w;
           trace := trace w ++ [ECall (c r)] |}).

Definition get_state {B} : M B driver_state := fun w => (Ok (drv w), w).

Definition set_state {B} (s : driver_state) : M B unit :=
  fun w => (Ok tt, {| backend := backend w; drv := s; trace := trace w |}).

(** [try: m except Exception as e: handler e] *)
Definition try_except {B A} (m : M B A) (handler : exc -> M B A) : M B A :=
  fun w =>
    match m w with
    | (Ok a, w') => (Ok a, w')
    | (Raise e, w') => handler e w'
    end.

(** [with excutils.save_and_reraise_exception(): body], entered while
    handling [e].  oslo's context manager re-raises the saved exception
    when the body finishes; in the words of its docstring, "if another
    exception occurs, the saved exception is logged and the new
    exception is re-raised". *)
Definition save_and_reraise_exception {B A} (e : exc) (body : M B unit)
  : M B A :=
  fun w =>
    match body w with
    | (Ok _, w') => (Raise e, w')
    | (Raise e', w') =>
        (LOG ERROR "Original exception being dropped: %s" [AExc e] ;;;
         raise e') w'
    end.

(** Start an operation on a controller [b] with driver state [s] and an
    empty record of actions. *)
Definition run {B A} (m : M B A) (b : B) (s : driver_state)
  : result A * world B :=
  m {| backend := b; drv := s; trace := [] |}.

(** Python truth value of [chap_secret] and of [host_name]: [None] and
    the empty string are false. *)
Definition truthy (o : option string) : bool :=
  match o with
  | Some s => negb (String.eqb s "")
  | None => false
  end.

(** [len(x)] used as a condition, for a list and for a string. *)
Definition len_list {A} (l : list A) : bool :=
  match l with [] => false | _ :: _ => true end.

Definition len_str (s : string) : bool := negb (String.eqb s "").

(** [del d[k]] on the items of a dictionary. *)
Definition dict_del {A} (k : string) (d : list (string * A))
  : list (string * A) :=
  filter (fun kv => kv.1 <> k) d.

(** [d.values()] *)
Definition values {A} (d : list (string * A)) : list A := map snd d.

(** [d[k]] on a dictionary of strings. *)
Definition getitem {B} (d : gmap string string) (k : string) : M B string :=
  match d !! k with
  | Some v => ret v
  | None => raise (KeyError k)
  end.

Definition lift {B A} (r : result A) : M B A := fun w => (r, w).

(** The scan of the inventory in [initialize_connection] (lines
    190-198), with the two variables the loop updates. *)
Fixpoint scan_nodes (protocol preferred_node IO_group_id : string)
    (nodes : list node)
    (preferred_node_entry : option node) (io_group_nodes : list node)
  : option node * list node :=
  match nodes with
  | [] => (preferred_node_entry, io_group_nodes)
  | node :: rest =>
      if bool_decide (protocol ∉ enabled_protocols node) then
        scan_nodes protocol preferred_node IO_group_id rest
          preferred_node_entry io_group_nodes
      else
        let preferred_node_entry :=
          if bool_decide (id node = preferred_node) then Some node
          else preferred_node_entry in
        let io_group_nodes :=
          if bool_decide (IO_group node = IO_group_id)
          then io_group_nodes ++ [node]
          else io_group_nodes in
        scan_nodes protocol preferred_node IO_group_id rest
          preferred_node_entry io_group_nodes
  end.

(** Lines 218-221: [ipv4[0]] if the list is not empty, else [ipv6[0]]. *)
Definition target_ipaddr (preferred_node_entry : node) : result string :=
  if len_list (ipv4 preferred_node_entry) then
    match ipv4 preferred_node_entry with
    | a :: _ => Ok a
    | [] => Raise IndexError
    end
  else
    match ipv6 preferred_node_entry with
    | a :: _ => Ok a
    | [] => Raise IndexError
    end.

(** ** The driver *)

Section Driver.

Context {B : Type}.
Variable helpers : Helpers B.
Variable configuration : config.

Definition set_storage_nodes (nodes : list (string * node)) : M B unit :=
  s <-- get_state ;
  set_state {| driver_protocol := driver_protocol s;
               storage_nodes := nodes;
               state_enabled_protocols := state_enabled_protocols s |}.

(** [self._state['enabled_protocols'].add(p)] *)
Definition add_enabled_protocol (p : string) : M B unit :=
  s <-- get_state ;
  set_state {| driver_protocol := driver_protocol s;
               storage_nodes := storage_nodes s;
               state_enabled_protocols := {[p]} ∪ state_enabled_protocols s |}.

(** The first loop of [do_setup] (lines 106-116), over the items of
    [self._state['storage_nodes']].  The loop appends to the node's
    [enabled_protocols] in place; the items are answered as the loop
    leaves them, next to [to_delete]. *)
Fixpoint check_nodes (items : list (string * node))
  : M B (list (string * node) * list string) :=
  match items with
  | [] => ret ([], [])
  | (k, node) :: rest =>
      node <-- (if (len_list (ipv4 node) || len_list (ipv6 node))
                   && len_str (iscsi_name node)
                then add_enabled_protocol "iSCSI" ;;;
                     ret (append_protocol "iSCSI" node)
                else ret node) ;
      del <-- (if negb (len_list (enabled_protocols node))
               then LOG INFO
                      "%(node)s will be removed since it is not supported by the iSCSI driver."
                      [AStr (name node)] ;;;
                    ret [k]
               else ret []) ;
      r <-- check_nodes rest ;
      ret ((k, node) :: r.1, del ++ r.2)
  end.

Definition do_setup : M B unit :=
  (* Set protocol *)
  s <-- get_state ;
  set_state {| driver_protocol := "iSCSI";
               storage_nodes := storage_nodes s;
               state_enabled_protocols := state_enabled_protocols s |} ;;;
  (* Setup common functionality between FC and iSCSI *)
  s <-- get_state ;
  s <-- invoke common_do_setup_call (common_do_setup helpers s) ;
  set_state s ;;;
  (* Get the iSCSI names of the Storwize/SVC nodes *)
  nodes <-- invoke get_node_info_call (get_node_info helpers) ;
  set_storage_nodes nodes ;;;
  (* Add the iSCSI IP addresses to the storage node info *)
  nodes <-- invoke (add_iscsi_ip_addrs_call nodes)
              (add_iscsi_ip_addrs helpers nodes) ;
  set_storage_nodes nodes ;;;
  (* For each node, check what connection modes it supports.  Delete any
     nodes that do not support any types. *)
  r <-- check_nodes nodes ;
  set_storage_nodes (foldl (fun d delkey => dict_del delkey d) r.1 r.2) ;;;
  (* Make sure we have at least one node configured *)
  s <-- get_state ;
  if negb (len_list (storage_nodes s)) then
    let msg := "do_setup: No configured nodes." in
    LOG ERROR msg [] ;;;
    raise (VolumeDriverException msg)
  else
    LOG DEBUG "leave: do_setup" [].

Definition validate_connector (connector : connector) : M B unit :=
  match connector !! "initiator" with
  | None =>
      LOG ERROR "The connector does not contain the required information."
        [] ;;;
      raise (InvalidConnectorException "initiator")
  | Some _ => ret tt
  end.

Definition terminate_connection (volume : volume) (connector : connector)
  : M B info :=
  LOG DEBUG "enter: terminate_connection: volume %(vol)s with connector %(conn)s"
    [AStr (vol_id volume); AConn connector] ;;;
  let vol_name := vol_name volume in
  r <-- match connector !! "host" with
        | Some _ =>
            (* get host according to iSCSI protocol *)
            let info : info :=
              {[ "driver_volume_type" := IStr "iscsi"; "data" := IData ∅ ]} in
            host_name <-- invoke (get_host_from_connector_call connector)
                            (get_host_from_connector helpers connector) ;
            match host_name with
            | None =>
                let msg :=
                  "terminate_connection: Failed to get host name from connector." in
                LOG ERROR msg [] ;;;
                raise (VolumeDriverException msg)
            | Some h => ret (info, Some h)
            end
        | None =>
            (* See bug #1244257 *)
            ret (∅, None)
        end ;
  let info : info := r.1 in
  let host_name : option string := r.2 in
  (* Unmap volumes, if hostname is None, need to get value from vdiskmap *)
  host_name <-- invoke (unmap_vol_from_host_call vol_name host_name)
                  (unmap_vol_from_host helpers vol_name host_name) ;
  (* Host_name could be none *)
  match host_name with
   | Some h =>
       if truthy host_name then
         resp <-- invoke (check_host_mapped_vols_call h)
                    (check_host_mapped_vols helpers h) ;
         if negb (len_list resp) then
           invoke (delete_host_call h) (delete_host helpers h)
         else ret tt
       else ret tt
   | None => ret tt
   end ;;;
  LOG DEBUG "leave: terminate_connection: volume %(vol)s with connector %(conn)s"
    [AStr (vol_id volume); AConn connector] ;;;
  ret info.

(** Lines 189-211 of [initialize_connection]: the preferred node and
    the other nodes of the I/O group. *)
Definition select_node (vol_opts : vol_opts)
    (preferred_node IO_group_id volume_name : string) : M B node :=
  s <-- get_state ;
  let r := scan_nodes (protocol vol_opts) preferred_node IO_group_id
             (values (storage_nodes s)) None [] in
  let preferred_node_entry := r.1 in
  let io_group_nodes := r.2 in
  match io_group_nodes with
  | [] =>
      let msg := "initialize_connection: No node found in I/O group "
                 +:+ IO_group_id +:+ " for volume " +:+ volume_name +:+ "." in
      LOG ERROR msg [] ;;;
      raise (VolumeBackendAPIException msg)
  | first :: _ =>
      match preferred_node_entry with
      | None =>
          (* Get 1st node in I/O group *)
          LOG WARNING
            "initialize_connection: Did not find a preferred node for volume %s."
            [AStr volume_name] ;;;
          ret first
      | Some n => ret n
      end
  end.

(** The body of the second [try] (lines 189-231). *)
Definition collect_properties (volume : volume) (connector : connector)
    (vol_opts : vol_opts) (lun_id : Z) (chap_secret : option string)
    (preferred_node IO_group_id : string) : M B properties :=
  preferred_node_entry <-- select_node vol_opts preferred_node IO_group_id
                             (vol_name volume) ;
  let properties : properties := ∅ in
  let properties := <["target_discovered" := PBool false]> properties in
  let properties := <["target_lun" := PInt lun_id]> properties in
  let properties := <["volume_id" := PStr (vol_id volume)]> properties in
  ipaddr <-- lift (target_ipaddr preferred_node_entry) ;
  let properties :=
    <["target_portal" := PStr (ipaddr +:+ ":" +:+ "3260")]> properties in
  let properties :=
    <["target_iqn" := PStr (iscsi_name preferred_node_entry)]> properties in
  match chap_secret with
  | Some secret =>
      if truthy chap_secret then
        let properties := <["auth_method" := PStr "CHAP"]> properties in
        initiator <-- getitem connector "initiator" ;
        let properties := <["auth_username" := PStr initiator]> properties in
        let properties := <["auth_password" := PStr secret]> properties in
        let properties :=
          <["discovery_auth_method" := PStr "CHAP"]> properties in
        let properties :=
          <["discovery_auth_username" := PStr initiator]> properties in
        let properties :=
          <["discovery_auth_password" := PStr secret]> properties in
        ret properties
      else ret properties
  | None => ret properties
  end.

Definition initialize_connection (volume : volume) (connector : connector)
  : M B info :=
  LOG DEBUG "enter: initialize_connection: volume %(vol)s with connector %(conn)s"
    [AStr (vol_id volume); AConn connector] ;;;
  vol_opts <-- invoke (get_vdisk_params_call (volume_type_id volume))
                 (get_vdisk_params helpers (volume_type_id volume)) ;
  let volume_name := vol_name volume in
  (* Check if a host object is defined for this host name *)
  host_name <-- invoke (get_host_from_connector_call connector)
                  (get_host_from_connector helpers connector) ;
  host_name <-- match host_name with
                | None =>
                    (* Host does not exist - add a new host *)
                    invoke (create_host_call connector)
                      (create_host helpers connector)
                | Some h => ret h
                end ;
  chap_secret <-- invoke (get_chap_secret_for_host_call host_name)
                    (get_chap_secret_for_host helpers host_name) ;
  let chap_enabled := storwize_svc_iscsi_chap_enabled configuration in
  chap_secret <-- (if chap_enabled && bool_decide (chap_secret = None) then
                     secret <-- invoke (add_chap_secret_to_host_call host_name)
                                  (add_chap_secret_to_host helpers host_name) ;
                     ret (Some secret)
                   else if negb chap_enabled && truthy chap_secret then
                     LOG WARNING
                       "CHAP secret exists for host but CHAP is disabled."
                       [] ;;;
                     ret chap_secret
                   else ret chap_secret) ;
  volume_attributes <-- invoke (get_vdisk_attributes_call volume_name)
                          (get_vdisk_attributes helpers volume_name) ;
  match volume_attributes with
  | None =>
      let msg := "initialize_connection: Failed to get attributes for volume "
                 +:+ volume_name +:+ "." in
      LOG ERROR msg [] ;;;
      raise (VolumeDriverException msg)
  | Some volume_attributes =>
      let multihostmap := storwize_svc_multihostmap_enabled configuration in
      lun_id <-- invoke (map_vol_to_host_call volume_name host_name
                           multihostmap)
                   (map_vol_to_host helpers volume_name host_name
                      multihostmap) ;
      r <-- try_except
              (preferred_node <-- getitem volume_attributes
                                    "preferred_node_id" ;
               IO_group_id <-- getitem volume_attributes "IO_group_id" ;
               ret (preferred_node, IO_group_id))
              (fun e =>
                 match e with
                 | KeyError _ =>
                     LOG ERROR
                       "Did not find expected column name in lsvdisk: %s."
                       [AExc e] ;;;
                     raise (VolumeBackendAPIException
                              ("initialize_connection: Missing volume attribute for volume "
                               +:+ volume_name +:+ "."))
                 | _ => raise e
                 end) ;
      let preferred_node : string := r.1 in
      let IO_group_id : string := r.2 in
      properties <-- try_except
                       (collect_properties volume connector vol_opts lun_id
                          chap_secret preferred_node IO_group_id)
                       (fun e =>
                          save_and_reraise_exception e
                            (terminate_connection volume connector ;;;
                             LOG ERROR
                               "initialize_connection: Failed to collect return properties for volume %(vol)s and connector %(conn)s.\n"
                               [AVol volume; AConn connector])) ;
      LOG DEBUG
        "leave: initialize_connection:\n volume: %(vol)s\n connector %(conn)s\n properties: %(prop)s"
        [AStr (vol_id volume); AConn connector; AProps properties] ;;;
      ret ({[ "driver_volume_type" := IStr "iscsi";
              "data" := IData properties ]} : info)
  end.

End Driver.

(** ** A simulated controller *)

(** Modelled from the spec: the storage-controller access layer
    ([self._helpers], section 6 of the specification) and the inherited
    [do_setup] and [_get_vdisk_params] are not part of the driver's
    file.  [Sim] is a small controller that follows the contracts of
    sections 4.1 to 4.3; it only serves to evaluate the driver at
    concrete inputs, every general theorem below quantifies over all
    [Helpers]. *)
Module Sim.

Record host := {
  host_initiator : string;
  host_chap : option string
}.

Record controller := {
  nodes : list (string * node);
  hosts : list (string * host);
  vdisks : list (string * vdisk_attributes);
  maps : list (string * string)
}.

Definition lookup {A} (k : string) (d : list (string * A)) : option A :=
  snd <$> List.find (fun kv => bool_decide (kv.1 = k)) d.

Definition with_hosts (hs : list (string * host)) (b : controller)
  : controller :=
  {| nodes := nodes b; hosts := hs; vdisks := vdisks b; maps := maps b |}.

Definition with_maps (ms : list (string * string)) (b : controller)
  : controller :=
  {| nodes := nodes b; hosts := hosts b; vdisks := vdisks b; maps := ms |}.

(** The inventory as [lsnode] reports it: no address and no protocol
    yet. *)
Definition bare (n : node) : node :=
  {| id := id n; name := name n; IO_group := IO_group n;
     iscsi_name := iscsi_name n; ipv4 := []; ipv6 := [];
     enabled_protocols := [] |}.

Definition get_node_info (b : controller)
  : result (list (string * node)) * controller :=
  (Ok (map (fun kn => (kn.1, bare kn.2)) (nodes b)), b).

Definition with_addrs (b : controller) (kn : string * node)
  : string * node :=
  match lookup kn.1 (nodes b) with
  | Some n =>
      (kn.1,
       {| id := id kn.2; name := name kn.2; IO_group := IO_group kn.2;
          iscsi_name := iscsi_name kn.2; ipv4 := ipv4 n; ipv6 := ipv6 n;
          enabled_protocols := enabled_protocols kn.2 |})
  | None => kn
  end.

Definition add_iscsi_ip_addrs (ns : list (string * node)) (b : controller)
  : result (list (string * node)) * controller :=
  (Ok (map (with_addrs b) ns), b).

Definition get_host_from_connector (c : connector) (b : controller)
  : result (option string) * controller :=
  match c !! "initiator" with
  | Some i =>
      (Ok (fst <$> List.find
                     (fun kh => bool_decide (host_initiator kh.2 = i))
                     (hosts b)), b)
  | None => (Ok None, b)
  end.

(** The host name is a function of the connector. *)
Definition create_host (c : connector) (b : controller)
  : result string * controller :=
  match c !! "initiator" with
  | Some i =>
      let h := "host-" +:+ i in
      (Ok h,
       with_hosts (hosts b ++ [(h, {| host_initiator := i;
                                      host_chap := None |})]) b)
  | None => (Raise (HelperFailure "create_host: No connector ports."), b)
  end.

Definition get_chap_secret_for_host (h : string) (b : controller)
  : result (option string) * controller :=
  (Ok (lookup h (hosts b) ≫= host_chap), b).

Definition add_chap_secret_to_host (h : string) (b : controller)
  : result string * controller :=
  let secret := "secret-" +:+ h in
  (Ok secret,
   with_hosts
     (map (fun kh =>
             if bool_decide (kh.1 = h)
             then (kh.1, {| host_initiator := host_initiator kh.2;
                            host_chap := Some secret |})
             else kh) (hosts b)) b).

Definition get_vdisk_attributes (v : string) (b : controller)
  : result (option vdisk_attributes) * controller :=
  (Ok (lookup v (vdisks b)), b).

Definition mapped_to (v : string) (b : controller) : list string :=
  map snd (filter (fun m => m.1 = v) (maps b)).

Definition mapped_vols (h : string) (b : controller) : list string :=
  map fst (filter (fun m => m.2 = h) (maps b)).

(** The LUN id is the position of the volume among the host's
    mappings. *)
Fixpoint index_of (v : string) (l : list string) : nat :=
  match l with
  | [] => 0
  | x :: r => if bool_decide (x = v) then 0 else S (index_of v r)
  end.

Definition map_vol_to_host (v h : string) (multihostmap : bool)
    (b : controller) : result Z * controller :=
  if bool_decide (h ∈ mapped_to v b) then
    (Ok (Z.of_nat (index_of v (mapped_vols h b))), b)
  else if negb multihostmap && len_list (mapped_to v b) then
    (Raise (HelperFailure "map_vol_to_host: multi-host mapping is disabled."),
     b)
  else
    (Ok (Z.of_nat (length (mapped_vols h b))),
     with_maps (maps b ++ [(v, h)]) b).

(** It removes the mapping of the volume to the host and answers the
    host affected, or none if no such mapping existed; when no host is
    given, the host is looked up from the volume's mappings. *)
Definition unmap_vol_from_host (v : string) (h : option string)
    (b : controller) : result (option string) * controller :=
  let target :=
    match h with
    | Some x => if bool_decide (x ∈ mapped_to v b) then Some x else None
    | None => match mapped_to v b with [first] => Some first | _ => None end
    end in
  match target with
  | Some x =>
      (Ok (Some x), with_maps (filter (fun m => m <> (v, x)) (maps b)) b)
  | None => (Ok None, b)
  end.

Definition check_host_mapped_vols (h : string) (b : controller)
  : result (list string) * controller :=
  (Ok (mapped_vols h b), b).

Definition delete_host (h : string) (b : controller)
  : result unit * controller :=
  (Ok tt, with_hosts (dict_del h (hosts b)) b).

Definition helpers : Helpers controller :=
  Build_Helpers controller
    (fun s b => (Ok s, b))
    (fun _ b => (Ok {| protocol := "iSCSI" |}, b))
    get_node_info add_iscsi_ip_addrs get_host_from_connector create_host
    get_chap_secret_for_host add_chap_secret_to_host get_vdisk_attributes
    map_vol_to_host unmap_vol_from_host check_host_mapped_vols delete_host.

End Sim.

(** ** Concrete scenarios *)

Module Scenario.

Definition N1 : node :=
  {| id := "1"; name := "node1"; IO_group := "0";
     iscsi_name := "iqn.1986-03.com.ibm:2145.cluster.node1";
     ipv4 := ["10.0.0.5"]; ipv6 := []; enabled_protocols := [] |}.

(** A node with neither address nor iSCSI name. *)
Definition N2 : node :=
  {| id := "2"; name := "node2"; IO_group := "0";
     iscsi_name := ""; ipv4 := []; ipv6 := []; enabled_protocols := [] |}.

Definition V1 : volume :=
  {| vol_id := "id-V1"; vol_name := "V1"; volume_type_id := None |}.

Definition V1_attributes : vdisk_attributes :=
  {[ "preferred_node_id" := "1"; "IO_group_id" := "0" ]}.

Definition controller0 : Sim.controller :=
  {| Sim.nodes := [("1", N1); ("2", N2)];
     Sim.hosts := [];
     Sim.vdisks := [("V1", V1_attributes)];
     Sim.maps := [] |}.

(** A controller whose only node is not configured for iSCSI. *)
Definition controller_bare : Sim.controller :=
  {| Sim.nodes := [("2", N2)];
     Sim.hosts := [];
     Sim.vdisks := [("V1", V1_attributes)];
     Sim.maps := [] |}.

Definition state0 : driver_state :=
  {| driver_protocol := ""; storage_nodes := [];
     state_enabled_protocols := ∅ |}.

Definition chap_on : config :=
  {| storwize_svc_iscsi_chap_enabled := true;
     storwize_svc_multihostmap_enabled := true |}.

Definition chap_off : config :=
  {| storwize_svc_iscsi_chap_enabled := false;
     storwize_svc_multihostmap_enabled := true |}.

Definition conn : connector := {[ "initiator" := "iqn.test" ]}.

Definition conn_host : connector :=
  {[ "initiator" := "iqn.test"; "host" := "compute1" ]}.

(** A connector that names a host but no initiator. *)
Definition conn_host_only : connector := {[ "host" := "compute1" ]}.

(** The driver state after [do_setup] on [controller0]. *)
Definition state1 : driver_state :=
  drv (run (do_setup Sim.helpers) controller0 state0).2.

(** The driver after setup, facing [controller0]. *)
Definition world1 : world Sim.controller :=
  {| backend := controller0; drv := state1; trace := [] |}.

Definition iscsi_opts : vol_opts := {| protocol := "iSCSI" |}.

(** The controller once [V1] is connected for [conn] with CHAP on. *)
Definition controller1 : Sim.controller :=
  backend (initialize_connection Sim.helpers chap_on V1 conn world1).2.

(** The driver facing [controller1]. *)
Definition world2 : world Sim.controller :=
  {| backend := controller1; drv := state1; trace := [] |}.

(** The properties [initialize_connection] answers for [V1] and [conn]
    on [controller1]: portal and target of [N1], LUN 0 and the CHAP
    secret of the host. *)
Definition V1_properties : properties :=
  {[ "target_discovered" := PBool false;
     "target_lun" := PInt 0;
     "volume_id" := PStr "id-V1";
     "target_portal" := PStr "10.0.0.5:3260";
     "target_iqn" := PStr "iqn.1986-03.com.ibm:2145.cluster.node1";
     "auth_method" := PStr "CHAP";
     "auth_username" := PStr "iqn.test";
     "auth_password" := PStr "secret-host-iqn.test";
     "discovery_auth_method" := PStr "CHAP";
     "discovery_auth_username" := PStr "iqn.test";
     "discovery_auth_password" := PStr "secret-host-iqn.test" ]}.

(** A volume whose [lsvdisk] attributes lack the preferred node. *)
Definition V2 : volume :=
  {| vol_id := "id-V2"; vol_name := "V2"; volume_type_id := None |}.

Definition V2_attributes : vdisk_attributes := {[ "IO_group_id" := "0" ]}.

Definition controller_V2 : Sim.controller :=
  {| Sim.nodes := [("1", N1); ("2", N2)];
     Sim.hosts := [];
     Sim.vdisks := [("V1", V1_attributes); ("V2", V2_attributes)];
     Sim.maps := [] |}.

Definition world_V2 : world Sim.controller :=
  {| backend := controller_V2; drv := state1; trace := [] |}.

(** What an operation returned, if it did. *)
Definition returned {A} (r : result A) : option A :=
  match r with Ok a => Some a | Raise _ => None end.

End Scenario.

(** ** Pruning, as a function of the inventory *)

(** What the first loop does to one node, and the keys it collects. *)
Definition supports_iscsi (n : node) : bool :=
  (len_list (ipv4 n) || len_list (ipv6 n)) && len_str (iscsi_name n).

Definition mark (n : node) : node :=
  if supports_iscsi n then append_protocol "iSCSI" n else n.

Definition marked (items : list (string * node)) : list (string * node) :=
  map (fun kn => (kn.1, mark kn.2)) items.

Fixpoint doomed (items : list (string * node)) : list string :=
  match items with
  | [] => []
  | (k, n) :: rest =>
      if len_list (enabled_protocols (mark n)) then doomed rest
      else k :: doomed rest
  end.

(** The inventory [do_setup] leaves in [self._state]. *)
Definition pruned (items : list (string * node)) : list (string * node) :=
  foldl (fun d delkey => dict_del delkey d) (marked items) (doomed items).

Definition is_call (ev : event) : Prop :=
  match ev with ECall _ => True | ELog _ _ _ => False end.


Definition no_configured_nodes : exc :=
  VolumeDriverException "do_setup: No configured nodes.".

(** ** Node selection, as the specification words it *)

(** The nodes that support the requested protocol, and among them the
    candidates: those of the volume's I/O group, in inventory order. *)
Definition filtered (protocol : string) (nodes : list node) : list node :=
  filter (fun n => protocol ∈ enabled_protocols n) nodes.

Definition candidates (protocol IO_group_id : string) (nodes : list node)
  : list node :=
  filter (fun n => IO_group n = IO_group_id) (filtered protocol nodes).

Definition no_node_in_group (IO_group_id volume_name : string) : string :=
  "initialize_connection: No node found in I/O group "
  +:+ IO_group_id +:+ " for volume " +:+ volume_name +:+ ".".

(** The dictionary [terminate_connection] builds for a connector with a
    host. *)
Definition iscsi_no_data : info :=
  {[ "driver_volume_type" := IStr "iscsi"; "data" := IData ∅ ]}.

Definition log {B} (ev : event) (w : world B) : world B :=
  {| backend := backend w; drv := drv w; trace := trace w ++ [ev] |}.

(** The invariant setup-time pruning establishes for the addresses:
    every iSCSI-enabled node has an IPv4 or an IPv6 address. *)
Definition addressable (nodes : list node) : Prop :=
  forall n, In n nodes -> In "iSCSI" (enabled_protocols n) ->
            ipv4 n <> [] \/ ipv6 n <> [].

(** The events a [terminate_connection] can leave in the trace: log
    lines and the four collaborator calls it makes. *)
Definition is_teardown (ev : event) : Prop :=
  match ev with
  | ELog _ _ _ => True
  | ECall (get_host_from_connector_call _ _) => True
  | ECall (unmap_vol_from_host_call _ _ _) => True
  | ECall (check_host_mapped_vols_call _ _) => True
  | ECall (delete_host_call _ _) => True
  | ECall _ => False
  end.

(** The first thing [terminate_connection] does. *)
Definition enter_terminate (v : volume) (c : connector) : event :=
  ELog DEBUG
    "enter: terminate_connection: volume %(vol)s with connector %(conn)s"
    [AStr (vol_id v); AConn c].

(** The CHAP entries of the connection properties. *)
Definition chap_attached (initiator secret : string) (p : properties)
  : Prop :=
  p !! "auth_method" = Some (PStr "CHAP")
  /\ p !! "auth_username" = Some (PStr initiator)
  /\ p !! "auth_password" = Some (PStr secret)
  /\ p !! "discovery_auth_method" = Some (PStr "CHAP")
  /\ p !! "discovery_auth_username" = Some (PStr initiator)
  /\ p !! "discovery_auth_password" = Some (PStr secret).

Definition chap_mismatch_warning : event :=
  ELog WARNING "CHAP secret exists for host but CHAP is disabled." [].

Definition missing_column (key : string) : event :=
  ELog ERROR "Did not find expected column name in lsvdisk: %s."
    [AExc (KeyError key)].

Definition original_dropped (e : exc) : event :=
  ELog ERROR "Original exception being dropped: %s" [AExc e].

(** ** Further specification-level definitions *)

(** The inventory with the nodes that have no protocol left out, in
    order: what pruning amounts to on a dictionary. *)
Definition with_protocol (items : list (string * node))
  : list (string * node) :=
  filter (fun kn => enabled_protocols kn.2 <> []) items.

(** The entries of the connection properties that describe the target:
    node [n] reached at address [a], for LUN [lun_id] of volume [v]. *)
Definition target_described (v : volume) (lun_id : Z) (n : node)
    (a : string) (p : properties) : Prop :=
  p !! "target_discovered" = Some (PBool false)
  /\ p !! "target_lun" = Some (PInt lun_id)
  /\ p !! "volume_id" = Some (PStr (vol_id v))
  /\ p !! "target_portal" = Some (PStr (a +:+ ":3260"))
  /\ p !! "target_iqn" = Some (PStr (iscsi_name n)).

(** Connection properties without any CHAP entry. *)
Definition no_chap (p : properties) : Prop :=
  p !! "auth_method" = None
  /\ p !! "auth_username" = None
  /\ p !! "auth_password" = None
  /\ p !! "discovery_auth_method" = None
  /\ p !! "discovery_auth_username" = None
  /\ p !! "discovery_auth_password" = None.

(** The dictionary [initialize_connection] returns around the
    properties. *)
Definition iscsi_info (p : properties) : info :=
  {[ "driver_volume_type" := IStr "iscsi"; "data" := IData p ]}.

Definition no_attributes (volume_name : string) : exc :=
  VolumeDriverException
    ("initialize_connection: Failed to get attributes for volume "
     +:+ volume_name +:+ ".").

(** The events of a rollback or of a teardown proper. *)
Definition is_undo (ev : event) : Prop :=
  match ev with
  | ECall (unmap_vol_from_host_call _ _ _) => True
  | ECall (check_host_mapped_vols_call _ _) => True
  | ECall (delete_host_call _ _) => True
  | _ => False
  end.

Definition no_preferred_node_warning (volume_name : string) : event :=
  ELog WARNING
    "initialize_connection: Did not find a preferred node for volume %s."
    [AStr volume_name].

Definition leave_terminate (v : volume) (c : connector) : event :=
  ELog DEBUG
    "leave: terminate_connection: volume %(vol)s with connector %(conn)s"
    [AStr (vol_id v); AConn c].

Definition unknown_host : string :=
  "terminate_connection: Failed to get host name from connector.".

(** What [terminate_connection] leaves in the trace after its entry
    line: its two other log lines and its four collaborator calls. *)
Definition is_teardown_event (v : volume) (c : connector) (ev : event)
  : Prop :=
  ev = leave_terminate v c
  \/ ev = ELog ERROR unknown_host []
  \/ match ev with
     | ECall (get_host_from_connector_call _ _) => True
     | ECall (unmap_vol_from_host_call _ _ _) => True
     | ECall (check_host_mapped_vols_call _ _) => True
     | ECall (delete_host_call _ _) => True
     | _ => False
     end.

(** ** The shape of an [initialize_connection] run

    The traces [initialize_connection] can leave, as a grammar: each
    constructor is one way through the function, with the outcome it
    ends in.  [initialize_connection_shape] below shows that every run
    has one of these shapes; the properties of the whole operation are
    read off the grammar. *)

Definition enter_initialize (v : volume) (c : connector) : event :=
  ELog DEBUG
    "enter: initialize_connection: volume %(vol)s with connector %(conn)s"
    [AStr (vol_id v); AConn c].

Definition leave_initialize (v : volume) (c : connector) (p : properties)
  : event :=
  ELog DEBUG
    "leave: initialize_connection:\n volume: %(vol)s\n connector %(conn)s\n properties: %(prop)s"
    [AStr (vol_id v); AConn c; AProps p].

Definition collect_failed (v : volume) (c : connector) : event :=
  ELog ERROR
    "initialize_connection: Failed to collect return properties for volume %(vol)s and connector %(conn)s.\n"
    [AVol v; AConn c].

Definition missing_attribute (volume_name : string) : exc :=
  VolumeBackendAPIException
    ("initialize_connection: Missing volume attribute for volume "
     +:+ volume_name +:+ ".").

Section Shape.

Variable cfg : config.
Variable v : volume.
Variable c : connector.
Variable s : driver_state.

(** What a returning guarded block has built. *)
Definition guard_success (opts : vol_opts) (lun_id : Z)
    (chap_secret : option string) (p : properties) (logs : list event)
  : Prop :=
  (logs = [] \/ logs = [no_preferred_node_warning (vol_name v)])
  /\ (exists n a,
         In n (filtered (protocol opts) (values (storage_nodes s)))
         /\ target_ipaddr n = Ok a
         /\ target_described v lun_id n a p)
  /\ (truthy chap_secret = false -> no_chap p)
  /\ (forall secret,
         chap_secret = Some secret -> secret <> "" ->
         exists initiator,
           c !! "initiator" = Some initiator
           /\ chap_attached initiator secret p).

(** The ways the guarded block fails. *)
Definition guard_failure (IO_group_id : string) (e : exc)
    (logs : list event) : Prop :=
  (e = VolumeBackendAPIException
         (no_node_in_group IO_group_id (vol_name v))
   /\ logs = [ELog ERROR (no_node_in_group IO_group_id (vol_name v)) []])
  \/ ((e = IndexError
       \/ (e = KeyError "initiator" /\ c !! "initiator" = None))
      /\ (logs = [] \/ logs = [no_preferred_node_warning (vol_name v)])).

(** The volume's I/O group has no node for the protocol. *)
Definition no_candidate (opts : vol_opts) (IO_group_id : string) : Prop :=
  candidates (protocol opts) IO_group_id (values (storage_nodes s)) = [].

Inductive guarded_shape (opts : vol_opts) (lun_id : Z)
    (chap_secret : option string) (IO_group_id : string)
  : result info -> list event -> Prop :=
| gs_returned p logs :
    ~ no_candidate opts IO_group_id ->
    guard_success opts lun_id chap_secret p logs ->
    guarded_shape opts lun_id chap_secret IO_group_id
      (Ok (iscsi_info p)) (logs ++ [leave_initialize v c p])
| gs_rolled_back e logs t :
    (no_candidate opts IO_group_id ->
     e = VolumeBackendAPIException
           (no_node_in_group IO_group_id (vol_name v))) ->
    guard_failure IO_group_id e logs ->
    Forall (is_teardown_event v c) t ->
    guarded_shape opts lun_id chap_secret IO_group_id
      (Raise e) (logs ++ enter_terminate v c :: t ++ [collect_failed v c])
| gs_rollback_failed e e' logs t :
    (no_candidate opts IO_group_id ->
     e = VolumeBackendAPIException
           (no_node_in_group IO_group_id (vol_name v))) ->
    guard_failure IO_group_id e logs ->
    Forall (is_teardown_event v c) t ->
    guarded_shape opts lun_id chap_secret IO_group_id
      (Raise e') (logs ++ enter_terminate v c :: t ++ [original_dropped e]).

Inductive mapped_shape (opts : vol_opts) (lun_id : Z)
    (chap_secret : option string) (attrs : vdisk_attributes)
  : result info -> list event -> Prop :=
| ms_no_preferred_node :
    attrs !! "preferred_node_id" = None ->
    mapped_shape opts lun_id chap_secret attrs
      (Raise (missing_attribute (vol_name v)))
      [missing_column "preferred_node_id"]
| ms_no_IO_group preferred_node :
    attrs !! "preferred_node_id" = Some preferred_node ->
    attrs !! "IO_group_id" = None ->
    mapped_shape opts lun_id chap_secret attrs
      (Raise (missing_attribute (vol_name v)))
      [missing_column "IO_group_id"]
| ms_guarded preferred_node IO_group_id r tr :
    attrs !! "preferred_node_id" = Some preferred_node ->
    attrs !! "IO_group_id" = Some IO_group_id ->
    guarded_shape opts lun_id chap_secret IO_group_id r tr ->
    mapped_shape opts lun_id chap_secret attrs r tr.

Inductive chap_shape (opts : vol_opts) (h : string)
    (chap_secret : option string) : result info -> list event -> Prop :=
| cs_attributes_failed e :
    chap_shape opts h chap_secret (Raise e)
      [ECall (get_vdisk_attributes_call (vol_name v) (Raise e))]
| cs_no_attributes :
    chap_shape opts h chap_secret (Raise (no_attributes (vol_name v)))
      [ECall (get_vdisk_attributes_call (vol_name v) (Ok None));
       ELog ERROR
         ("initialize_connection: Failed to get attributes for volume "
          +:+ vol_name v +:+ ".") []]
| cs_map_failed attrs e :
    chap_shape opts h chap_secret (Raise e)
      [ECall (get_vdisk_attributes_call (vol_name v) (Ok (Some attrs)));
       ECall (map_vol_to_host_call (vol_name v) h
                (storwize_svc_multihostmap_enabled cfg) (Raise e))]
| cs_mapped attrs lun_id r tr :
    mapped_shape opts lun_id chap_secret attrs r tr ->
    chap_shape opts h chap_secret r
      (ECall (get_vdisk_attributes_call (vol_name v) (Ok (Some attrs)))
       :: ECall (map_vol_to_host_call (vol_name v) h
                   (storwize_svc_multihostmap_enabled cfg) (Ok lun_id))
       :: tr).

Inductive host_shape (opts : vol_opts) (h : string)
  : result info -> list event -> Prop :=
| hs_query_failed e :
    host_shape opts h (Raise e)
      [ECall (get_chap_secret_for_host_call h (Raise e))]
| hs_install_failed e :
    storwize_svc_iscsi_chap_enabled cfg = true ->
    host_shape opts h (Raise e)
      [ECall (get_chap_secret_for_host_call h (Ok None));
       ECall (add_chap_secret_to_host_call h (Raise e))]
| hs_installed secret r tr :
    storwize_svc_iscsi_chap_enabled cfg = true ->
    chap_shape opts h (Some secret) r tr ->
    host_shape opts h r
      (ECall (get_chap_secret_for_host_call h (Ok None))
       :: ECall (add_chap_secret_to_host_call h (Ok secret)) :: tr)
| hs_reused secret r tr :
    storwize_svc_iscsi_chap_enabled cfg = true ->
    chap_shape opts h (Some secret) r tr ->
    host_shape opts h r
      (ECall (get_chap_secret_for_host_call h (Ok (Some secret))) :: tr)
| hs_mismatch secret r tr :
    storwize_svc_iscsi_chap_enabled cfg = false ->
    secret <> "" ->
    chap_shape opts h (Some secret) r tr ->
    host_shape opts h r
      (ECall (get_chap_secret_for_host_call h (Ok (Some secret)))
       :: chap_mismatch_warning :: tr)
| hs_plain chap_secret r tr :
    storwize_svc_iscsi_chap_enabled cfg = false ->
    truthy chap_secret = false ->
    chap_shape opts h chap_secret r tr ->
    host_shape opts h r
      (ECall (get_chap_secret_for_host_call h (Ok chap_secret)) :: tr).

Inductive initialize_shape : result info -> list event -> Prop :=
| is_params_failed e :
    initialize_shape (Raise e)
      [enter_initialize v c;
       ECall (get_vdisk_params_call (volume_type_id v) (Raise e))]
| is_lookup_failed opts e :
    initialize_shape (Raise e)
      [enter_initialize v c;
       ECall (get_vdisk_params_call (volume_type_id v) (Ok opts));
       ECall (get_host_from_connector_call c (Raise e))]
| is_create_failed opts e :
    initialize_shape (Raise e)
      [enter_initialize v c;
       ECall (get_vdisk_params_call (volume_type_id v) (Ok opts));
       ECall (get_host_from_connector_call c (Ok None));
       ECall (create_host_call c (Raise e))]
| is_found opts h r tr :
    host_shape opts h r tr ->
    initialize_shape r
      (enter_initialize v c
       :: ECall (get_vdisk_params_call (volume_type_id v) (Ok opts))
       :: ECall (get_host_from_connector_call c (Ok (Some h))) :: tr)
| is_created opts h r tr :
    host_shape opts h r tr ->
    initialize_shape r
      (enter_initialize v c
       :: ECall (get_vdisk_params_call (volume_type_id v) (Ok opts))
       :: ECall (get_host_from_connector_call c (Ok None))
       :: ECall (create_host_call c (Ok h)) :: tr).

End Shape.

(** ** Further scenarios *)

Module Cases.

(** A volume of an I/O group no node belongs to. *)
Definition V3 : volume :=
  {| vol_id := "id-V3"; vol_name := "V3"; volume_type_id := None |}.

Definition V3_attributes : vdisk_attributes :=
  {[ "preferred_node_id" := "1"; "IO_group_id" := "7" ]}.

Definition controller_V3 : Sim.controller :=
  {| Sim.nodes := [("1", Scenario.N1); ("2", Scenario.N2)];
     Sim.hosts := [];
     Sim.vdisks := [("V3", V3_attributes)];
     Sim.maps := [] |}.

(** The state [do_setup] starts the node scan from on [Sim.helpers]. *)
Definition state_iscsi : driver_state :=
  {| driver_protocol := "iSCSI"; storage_nodes := [];
     state_enabled_protocols := ∅ |}.

Definition lsnode_failed : exc := HelperFailure "lsnode failed".

(** Modelled from the spec: a controller access layer whose inventory
    query fails, the other methods being those of [Sim]. *)
Definition helpers_without_inventory : Helpers Sim.controller :=
  Build_Helpers Sim.controller
    (fun s b => (Ok s, b))
    (fun _ b => (Ok {| protocol := "iSCSI" |}, b))
    (fun b => (Raise lsnode_failed, b))
    Sim.add_iscsi_ip_addrs Sim.get_host_from_connector Sim.create_host
    Sim.get_chap_secret_for_host Sim.add_chap_secret_to_host
    Sim.get_vdisk_attributes Sim.map_vol_to_host Sim.unmap_vol_from_host
    Sim.check_host_mapped_vols Sim.delete_host.

(** Modelled from the spec: a controller access layer whose inventory
    (section 6, getNodeInventory and the address query) answers the
    given nodes, enabled protocols included, and whose volume
    parameters are the given ones; the other methods are those of
    [Sim]. *)
Definition helpers_with (inventory : list (string * node))
    (opts : vol_opts) : Helpers Sim.controller :=
  Build_Helpers Sim.controller
    (fun s b => (Ok s, b))
    (fun _ b => (Ok opts, b))
    (fun b => (Ok inventory, b))
    (fun nodes b => (Ok nodes, b))
    Sim.get_host_from_connector Sim.create_host
    Sim.get_chap_secret_for_host Sim.add_chap_secret_to_host
    Sim.get_vdisk_attributes Sim.map_vol_to_host Sim.unmap_vol_from_host
    Sim.check_host_mapped_vols Sim.delete_host.



(** A Fibre Channel node: no IP address, and no need for one. *)
Definition N4 : node :=
  {| id := "4"; name := "node4"; IO_group := "0";
     iscsi_name := ""; ipv4 := []; ipv6 := [];
     enabled_protocols := ["FC"] |}.

Definition fc_opts : vol_opts := {| protocol := "FC" |}.

Definition helpers_fc : Helpers Sim.controller :=
  helpers_with [("4", N4)] fc_opts.

(** The driver state after [do_setup] on the Fibre Channel inventory. *)
Definition state_fc : driver_state :=
  drv (run (do_setup helpers_fc) Scenario.controller0 Scenario.state0).2.

Definition world_fc : world Sim.controller :=
  {| backend := Scenario.controller0; drv := state_fc; trace := [] |}.



End Cases.

(** * Properties *)

(** ** Running monadic code *)

Ltac unfold_monad :=
  unfold run, getitem, save_and_reraise_exception, try_except, LOG, emit,
    invoke, get_state, set_state, lift, bind, ret, raise in *.

Lemma len_list_true {A} (l : list A) : len_list l = true <-> l <> [].
Proof. destruct l; simpl; split; intros; congruence. Qed.

Lemma len_list_false {A} (l : list A) : len_list l = false <-> l = [].
Proof. destruct l; simpl; split; intros; congruence. Qed.

Lemma len_str_true (s : string) : len_str s = true <-> s <> "".
Proof.
  unfold len_str. rewrite negb_true_iff.
  split.
  - intros E ->. discriminate.
  - intros E. apply String.eqb_neq. exact E.
Qed.

(** ** [validate_connector] *)

(** C9. A connector without ['initiator'] makes [validate_connector]
    raise [InvalidConnectorException(missing='initiator')] (after the
    error line is logged); a connector with the key makes it return
    without any effect. *)
Theorem validate_connector_initiator {B} (c : connector) (w : world B) :
  (c !! "initiator" = None ->
   exists w',
     validate_connector c w = (Raise (InvalidConnectorException "initiator"), w')
     /\ backend w' = backend w /\ drv w' = drv w)
  /\ (is_Some (c !! "initiator") -> validate_connector c w = (Ok tt, w)).
Proof.
  unfold validate_connector. split.
  - intros ->. unfold_monad. simpl. eexists. split; [reflexivity|]. auto.
  - intros [i ->]. reflexivity.
Qed.

Lemma validate_connector_initiator_witness :
  (exists w',
     validate_connector (B:=Sim.controller) Scenario.conn_host_only
       {| backend := Scenario.controller0; drv := Scenario.state0;
          trace := [] |}
     = (Raise (InvalidConnectorException "initiator"), w')
     /\ backend w' = Scenario.controller0 /\ drv w' = Scenario.state0)
  /\ validate_connector (B:=Sim.controller) Scenario.conn
       {| backend := Scenario.controller0; drv := Scenario.state0;
          trace := [] |}
     = (Ok tt, {| backend := Scenario.controller0; drv := Scenario.state0;
                  trace := [] |}).
Proof.
  split.
  - apply (validate_connector_initiator Scenario.conn_host_only).
    reflexivity.
  - apply (validate_connector_initiator Scenario.conn).
    exists "iqn.test". reflexivity.
Defined.

(** ** [do_setup]: pruning of the inventory *)

Lemma len_list_snoc {A} (l : list A) (x : A) : len_list (l ++ [x]) = true.
Proof. destruct l; reflexivity. Qed.

Lemma check_nodes_run {B} (items : list (string * node)) (w : world B) :
  exists w' logs,
    check_nodes items w = (Ok (marked items, doomed items), w')
    /\ backend w' = backend w
    /\ storage_nodes (drv w') = storage_nodes (drv w)
    /\ trace w' = trace w ++ logs
    /\ Forall (fun ev => ~ is_call ev) logs.
Proof.
  revert w. induction items as [|[k n] rest IH]; intros w.
  - exists w, []. simpl. unfold ret. rewrite app_nil_r. auto.
  - simpl. unfold mark, supports_iscsi, add_enabled_protocol.
    destruct ((len_list (ipv4 n) || len_list (ipv6 n))
              && len_str (iscsi_name n)) eqn:E;
      unfold_monad; simpl.
    + rewrite len_list_snoc. simpl.
      match goal with |- context [check_nodes rest ?w0] =>
        destruct (IH w0) as (w' & logs & -> & Hb & Hs & Ht & Hl) end.
      simpl in *. exists w', logs. auto.
    + destruct (len_list (enabled_protocols n)) eqn:E'; simpl.
      * match goal with |- context [check_nodes rest ?w0] =>
          destruct (IH w0) as (w' & logs & -> & Hb & Hs & Ht & Hl) end.
        simpl in *. exists w', logs. auto.
      * match goal with |- context [check_nodes rest ?w0] =>
          destruct (IH w0) as (w' & logs & -> & Hb & Hs & Ht & Hl) end.
        simpl in *. eexists w', (_ :: logs). rewrite Ht, <- app_assoc.
        simpl. repeat split; auto.
Qed.

(** [do_setup] as a function of what the controller answers: once the
    addresses are in, the state holds the pruned inventory and the
    outcome depends on its emptiness only. *)
Lemma do_setup_run {B} (helpers : Helpers B) (b : B) (s : driver_state) :
  forall r w', run (do_setup helpers) b s = (r, w') ->
    (forall nodes0 nodes,
        In (ECall (add_iscsi_ip_addrs_call nodes0 (Ok nodes))) (trace w') ->
        storage_nodes (drv w') = pruned nodes
        /\ r = if len_list (pruned nodes) then Ok tt
               else Raise no_configured_nodes)
    /\ (r = Ok tt ->
        exists nodes0 nodes,
          In (ECall (add_iscsi_ip_addrs_call nodes0 (Ok nodes))) (trace w')).
Proof.
  intros r w'. unfold do_setup, set_storage_nodes. unfold_monad. simpl.
  destruct (common_do_setup helpers _ b) as [[s1|e1] b1]; simpl.
  2:{ intros [= <- <-]. simpl. split; [intros ? ? [H|[]]; discriminate
                                       | discriminate]. }
  destruct (get_node_info helpers b1) as [[n0|e2] b2]; simpl.
  2:{ intros [= <- <-]. simpl.
      split; [intros ? ? [H|[H|[]]]; discriminate | discriminate]. }
  destruct (add_iscsi_ip_addrs helpers n0 b2) as [[n1|e3] b3]; simpl.
  2:{ intros [= <- <-]. simpl.
      split; [intros ? ? [H|[H|[H|[]]]]; discriminate | discriminate]. }
  match goal with |- context [check_nodes n1 ?w0] =>
    destruct (check_nodes_run n1 w0) as (w1 & logs & -> & Hb & Hs & Ht & Hl)
  end.
  simpl in *. fold (pruned n1).
  assert (Hin : forall nodes0 nodes,
             In (ECall (add_iscsi_ip_addrs_call nodes0 (Ok nodes)))
               (trace w1 ++ [ELog ERROR "do_setup: No configured nodes." []])
             \/ In (ECall (add_iscsi_ip_addrs_call nodes0 (Ok nodes)))
               (trace w1 ++ [ELog DEBUG "leave: do_setup" []])
             \/ In (ECall (add_iscsi_ip_addrs_call nodes0 (Ok nodes)))
               (trace w1)
             -> nodes = n1).
  { intros nodes0 nodes H.
    assert (H' : In (ECall (add_iscsi_ip_addrs_call nodes0 (Ok nodes)))
                   (trace w1)).
    { destruct H as [H|[H|H]]; auto;
        apply in_app_or in H as [H|[H|[]]]; auto; discriminate. }
    rewrite Ht in H'. simpl in H'.
    destruct H' as [H'|[H'|[H'|H']]]; try congruence.
    rewrite Forall_forall in Hl. apply list_elem_of_In in H'.
    apply Hl in H'. destruct H'. exact I. }
  destruct (len_list (pruned n1)) eqn:E; simpl; intros [= <- <-]; simpl.
  - split.
    + intros nodes0 nodes H. rewrite (Hin nodes0 nodes) by auto.
      rewrite E. auto.
    + intros _. exists n0, n1. apply in_or_app. left. rewrite Ht.
      simpl. auto.
  - split.
    + intros nodes0 nodes H. rewrite (Hin nodes0 nodes) by auto.
      rewrite E. auto.
    + discriminate.
Qed.



Lemma in_marked (items : list (string * node)) k n :
  In (k, n) (marked items) <-> exists n0, In (k, n0) items /\ n = mark n0.
Proof.
  unfold marked. rewrite in_map_iff. split.
  - intros ([k0 n0] & [= <- <-] & H). eauto.
  - intros (n0 & H & ->). exists (k, n0). auto.
Qed.

Lemma in_doomed (items : list (string * node)) k n0 :
  In (k, n0) items -> enabled_protocols (mark n0) = [] -> In k (doomed items).
Proof.
  induction items as [|[k' n'] rest IH]; simpl; [tauto|].
  intros [[= -> ->]|H] E.
  - rewrite E. simpl. auto.
  - destruct (len_list (enabled_protocols (mark n'))); simpl; auto.
Qed.




(** C10. When pruning leaves no node, [do_setup] raises
    [VolumeDriverException] ('do_setup: No configured nodes.') instead
    of completing; hence the inventory is not empty after a [do_setup]
    that returned. *)
Theorem do_setup_requires_a_node {B} (helpers : Helpers B) (b : B)
    (s : driver_state) r w' :
  run (do_setup helpers) b s = (r, w') ->
  (forall nodes0 nodes,
      In (ECall (add_iscsi_ip_addrs_call nodes0 (Ok nodes))) (trace w') ->
      pruned nodes = [] ->
      r = Raise no_configured_nodes /\ storage_nodes (drv w') = [])
  /\ (r = Ok tt -> storage_nodes (drv w') <> []).
Proof.
  intros Hrun.
  destruct (do_setup_run helpers b s r w' Hrun) as [Hp Hok]. split.
  - intros nodes0 nodes Hev E. destruct (Hp nodes0 nodes Hev) as [-> ->].
    rewrite E. auto.
  - intros ->. destruct (Hok eq_refl) as (nodes0 & nodes & Hev).
    destruct (Hp nodes0 nodes Hev) as [-> Hr].
    destruct (len_list (pruned nodes)) eqn:E; [|discriminate].
    apply len_list_true. exact E.
Qed.



Lemma do_setup_requires_a_node_witness :
  ((run (do_setup Sim.helpers) Scenario.controller_bare
      Scenario.state0).1 = Raise no_configured_nodes
   /\ storage_nodes
        (drv (run (do_setup Sim.helpers) Scenario.controller_bare
                Scenario.state0).2) = [])
  /\ storage_nodes
       (drv (run (do_setup Sim.helpers) Scenario.controller0
               Scenario.state0).2) <> [].
Proof.
  split.
  - destruct (do_setup_requires_a_node Sim.helpers Scenario.controller_bare
                Scenario.state0 _ _ (surjective_pairing _)) as [H _].
    apply (H [("2", Sim.bare Scenario.N2)] [("2", Scenario.N2)]).
    + vm_compute. tauto.
    + vm_compute. reflexivity.
  - destruct (do_setup_requires_a_node Sim.helpers Scenario.controller0
                Scenario.state0 _ _ (surjective_pairing _)) as [_ H].
    apply H. vm_compute. reflexivity.
Defined.

(** ** Node selection *)

Lemma scan_nodes_candidates protocol preferred_node IO_group_id nodes :
  forall pe ign,
    (scan_nodes protocol preferred_node IO_group_id nodes pe ign).2
    = ign ++ candidates protocol IO_group_id nodes.
Proof.
  unfold candidates, filtered.
  induction nodes as [|n rest IH]; intros pe ign; simpl.
  - rewrite app_nil_r. reflexivity.
  - rewrite filter_cons. case_bool_decide as Hp.
    + rewrite decide_False by exact Hp. apply IH.
    + rewrite decide_True by (destruct (decide (protocol ∈ enabled_protocols n)); tauto).
      rewrite filter_cons. rewrite IH. case_bool_decide as Hg.
      * rewrite decide_True by exact Hg. rewrite <- app_assoc. reflexivity.
      * rewrite decide_False by exact Hg. reflexivity.
Qed.

Lemma scan_nodes_preferred_absent protocol preferred_node IO_group_id nodes :
  (forall n, In n (filtered protocol nodes) -> id n <> preferred_node) ->
  forall pe ign,
    (scan_nodes protocol preferred_node IO_group_id nodes pe ign).1 = pe.
Proof.
  unfold filtered.
  induction nodes as [|n rest IH]; intros Habs pe ign; simpl; [reflexivity|].
  rewrite filter_cons in Habs. case_bool_decide as Hp.
  - rewrite decide_False in Habs by exact Hp. apply IH. exact Habs.
  - rewrite decide_True in Habs
      by (destruct (decide (protocol ∈ enabled_protocols n)); tauto).
    rewrite bool_decide_eq_false_2 by (apply Habs; simpl; auto).
    apply IH. intros m Hm. apply Habs. simpl. auto.
Qed.

Lemma scan_nodes_preferred_in protocol preferred_node IO_group_id nodes :
  forall pe ign n,
    (scan_nodes protocol preferred_node IO_group_id nodes pe ign).1 = Some n ->
    pe = Some n \/ In n (filtered protocol nodes).
Proof.
  unfold filtered.
  induction nodes as [|m rest IH]; intros pe ign n; simpl; [auto|].
  rewrite filter_cons. case_bool_decide as Hp.
  - rewrite decide_False by exact Hp. apply IH.
  - rewrite decide_True
      by (destruct (decide (protocol ∈ enabled_protocols m)); tauto).
    intros H. apply IH in H as [H|H]; [|simpl; auto].
    case_bool_decide; [|auto]. injection H as <-. simpl. auto.
Qed.

(** When no node that supports the volume's protocol belongs to the
    volume's I/O group, node selection logs the error and raises
    [VolumeBackendAPIException] ('No node found in I/O group'), and so
    does the block [initialize_connection] guards with its rollback. *)
Theorem select_node_empty_group {B} (volume : volume) (c : connector)
    (opts : vol_opts) (lun_id : Z) (chap_secret : option string)
    (preferred_node IO_group_id : string) (w : world B) :
  candidates (protocol opts) IO_group_id (values (storage_nodes (drv w))) = []
  -> let msg := no_node_in_group IO_group_id (vol_name volume) in
     select_node opts preferred_node IO_group_id (vol_name volume) w
     = (Raise (VolumeBackendAPIException msg), log (ELog ERROR msg []) w)
     /\ collect_properties volume c opts lun_id chap_secret preferred_node
          IO_group_id w
        = (Raise (VolumeBackendAPIException msg), log (ELog ERROR msg []) w).
Proof.
  intros E msg.
  assert (H : select_node opts preferred_node IO_group_id (vol_name volume) w
              = (Raise (VolumeBackendAPIException msg),
                 log (ELog ERROR msg []) w)).
  { unfold select_node. unfold_monad. simpl.
    rewrite scan_nodes_candidates, E. reflexivity. }
  split; [exact H|].
  unfold collect_properties, bind. rewrite H. reflexivity.
Qed.

(** C6. When no node that supports the protocol carries the volume's
    preferred node id while the I/O group has candidates, selection
    returns the first candidate; it logs a warning and raises
    nothing. *)
Theorem select_node_fallback {B} (opts : vol_opts)
    (preferred_node IO_group_id volume_name : string) (w : world B)
    (first : node) (others : list node) :
  (forall n, In n (filtered (protocol opts) (values (storage_nodes (drv w))))
             -> id n <> preferred_node) ->
  candidates (protocol opts) IO_group_id (values (storage_nodes (drv w)))
  = first :: others ->
  select_node opts preferred_node IO_group_id volume_name w
  = (Ok first,
     log (ELog WARNING
            "initialize_connection: Did not find a preferred node for volume %s."
            [AStr volume_name]) w).
Proof.
  intros Habs E. unfold select_node. unfold_monad. simpl.
  rewrite scan_nodes_candidates, E.
  rewrite scan_nodes_preferred_absent by exact Habs. reflexivity.
Qed.

Lemma in_filtered protocol nodes n :
  In n (filtered protocol nodes)
  <-> In protocol (enabled_protocols n) /\ In n nodes.
Proof.
  unfold filtered.
  rewrite <- !list_elem_of_In, list_elem_of_filter. reflexivity.
Qed.

Lemma in_candidates protocol IO_group_id nodes n :
  In n (candidates protocol IO_group_id nodes)
  <-> IO_group n = IO_group_id /\ In n (filtered protocol nodes).
Proof.
  unfold candidates.
  rewrite <- !list_elem_of_In, list_elem_of_filter. reflexivity.
Qed.

(** Selection only ever answers a node of the inventory that supports
    the protocol, and it touches nothing but the log. *)
Lemma select_node_in {B} (opts : vol_opts)
    (preferred_node IO_group_id volume_name : string) (w w' : world B) n :
  select_node opts preferred_node IO_group_id volume_name w = (Ok n, w') ->
  In n (filtered (protocol opts) (values (storage_nodes (drv w)))).
Proof.
  unfold select_node. unfold_monad. simpl.
  rewrite scan_nodes_candidates. simpl.
  destruct (candidates _ _ _) as [|first others] eqn:E; [discriminate|].
  destruct (scan_nodes _ _ _ _ _ _).1 as [m|] eqn:Em.
  - intros [= <- <-].
    apply scan_nodes_preferred_in in Em as [Em|Em]; [discriminate|exact Em].
  - intros [= <- <-].
    assert (H : In first (candidates (protocol opts) IO_group_id
                            (values (storage_nodes (drv w))))).
    { rewrite E. simpl. auto. }
    apply in_candidates in H. tauto.
Qed.

Lemma target_ipaddr_first (n : node) :
  target_ipaddr n
  = match ipv4 n with
    | a :: _ => Ok a
    | [] => match ipv6 n with a :: _ => Ok a | [] => Raise IndexError end
    end.
Proof. unfold target_ipaddr. destruct (ipv4 n); reflexivity. Qed.

(** C7, as the code has it.  The portal of the returned properties is
    made from an address of the node selection answered: the node's
    first IPv4 address when it has one, its first IPv6 address
    otherwise, with port 3260.  When the volume's protocol is iSCSI and
    every iSCSI-enabled node of the inventory has an address, the
    lookup succeeds for the node selection answers, and the guarded
    block of [initialize_connection] never ends in [IndexError]. *)
Theorem chosen_node_address {B} (volume : volume) (c : connector)
    (opts : vol_opts) (lun_id : Z) (chap_secret : option string)
    (preferred_node IO_group_id : string) (w : world B) :
  (forall p w',
      collect_properties volume c opts lun_id chap_secret preferred_node
        IO_group_id w = (Ok p, w') ->
      exists n a,
        select_node opts preferred_node IO_group_id (vol_name volume) w
        = (Ok n, w')
        /\ p !! "target_portal" = Some (PStr (a +:+ ":3260"))
        /\ ((exists rest, ipv4 n = a :: rest)
            \/ (ipv4 n = [] /\ exists rest, ipv6 n = a :: rest)))
  /\ (protocol opts = "iSCSI" ->
      addressable (values (storage_nodes (drv w))) ->
      (forall n w',
          select_node opts preferred_node IO_group_id (vol_name volume) w
          = (Ok n, w') ->
          exists a,
            target_ipaddr n = Ok a
            /\ ((exists rest, ipv4 n = a :: rest)
                \/ (ipv4 n = [] /\ exists rest, ipv6 n = a :: rest)))
      /\ (collect_properties volume c opts lun_id chap_secret preferred_node
            IO_group_id w).1 <> Raise IndexError).
Proof.
  split.
  - intros p w'. unfold collect_properties, bind.
    destruct (select_node opts preferred_node IO_group_id (vol_name volume) w)
      as [[n|e] w1] eqn:Es; [|discriminate].
    unfold lift. rewrite target_ipaddr_first.
    assert (Hp : forall a (q : properties),
               <["target_iqn" := PStr (iscsi_name n)]>
                 (<["target_portal" := PStr (a +:+ ":" +:+ "3260")]> q)
               !! "target_portal" = Some (PStr (a +:+ ":3260"))).
    { intros a q. by simplify_map_eq. }
    assert (Hfinal : forall a w2 (q : properties),
               (match chap_secret with
                | Some secret =>
                    if truthy chap_secret
                    then
                      initiator <-- getitem c "initiator" ;
                      ret (<["discovery_auth_password" := PStr secret]>
                             (<["discovery_auth_username" := PStr initiator]>
                                (<["discovery_auth_method" := PStr "CHAP"]>
                                   (<["auth_password" := PStr secret]>
                                      (<["auth_username" := PStr initiator]>
                                         (<["auth_method" := PStr "CHAP"]>
                                            q))))))
                    else ret q
                | None => ret q
                end) w1 = (Ok p, w2) ->
               q !! "target_portal" = Some (PStr (a +:+ ":3260")) ->
               w2 = w1 /\ p !! "target_portal" = Some (PStr (a +:+ ":3260"))).
    { intros a w2 q. destruct chap_secret as [secret|]; simpl.
      - destruct (negb (String.eqb secret "")); simpl.
        + unfold_monad. destruct (c !! "initiator"); simpl; [|discriminate].
          intros [= <- <-] Hq. split; [reflexivity|]. by simplify_map_eq.
        + unfold ret. intros [= <- <-] Hq. auto.
      - unfold ret. intros [= <- <-] Hq. auto. }
    destruct (ipv4 n) as [|a4 r4] eqn:E4;
      [destruct (ipv6 n) as [|a6 r6] eqn:E6; [discriminate|]|]; simpl.
    + intros H. apply (Hfinal a6) in H as [-> H]; [|apply Hp].
      exists n, a6. split; [reflexivity|]. split; [exact H|]. right. eauto.
    + intros H. apply (Hfinal a4) in H as [-> H]; [|apply Hp].
      exists n, a4. split; [reflexivity|]. split; [exact H|]. left. eauto.
  - intros Hp Hinv.
    assert (Hsel : forall n w',
               select_node opts preferred_node IO_group_id (vol_name volume) w
               = (Ok n, w') ->
               exists a,
                 target_ipaddr n = Ok a
                 /\ ((exists rest, ipv4 n = a :: rest)
                     \/ (ipv4 n = [] /\ exists rest, ipv6 n = a :: rest))).
    { intros n w' Hs. apply select_node_in in Hs.
      apply in_filtered in Hs as [Hi Hn]. rewrite Hp in Hi.
      specialize (Hinv n Hn Hi). rewrite target_ipaddr_first.
      destruct (ipv4 n) as [|a4 r4]; [|eauto 6].
      destruct (ipv6 n) as [|a6 r6]; [|eauto 6].
      tauto. }
    split; [exact Hsel|].
    unfold collect_properties, bind.
    destruct (select_node opts preferred_node IO_group_id (vol_name volume) w)
      as [[n|e] w1] eqn:Es.
    + destruct (Hsel n w1 eq_refl) as (a & -> & _). unfold lift. simpl.
      destruct chap_secret as [secret|]; [|discriminate].
      destruct (truthy (Some secret)); [|discriminate].
      unfold getitem. destruct (c !! "initiator"); discriminate.
    + simpl. revert Es. unfold select_node. unfold_monad. simpl.
      destruct (scan_nodes _ _ _ _ _ _).2;
        [|destruct (scan_nodes _ _ _ _ _ _).1];
        intros [= <- <-]; discriminate.
Qed.

Lemma select_node_empty_group_witness :
  let msg := no_node_in_group "7" "V1" in
  select_node Scenario.iscsi_opts "1" "7" "V1" Scenario.world1
  = (Raise (VolumeBackendAPIException msg),
     log (ELog ERROR msg []) Scenario.world1)
  /\ collect_properties Scenario.V1 Scenario.conn Scenario.iscsi_opts 0 None
       "1" "7" Scenario.world1
     = (Raise (VolumeBackendAPIException msg),
        log (ELog ERROR msg []) Scenario.world1).
Proof.
  apply (select_node_empty_group Scenario.V1 Scenario.conn
           Scenario.iscsi_opts 0 None "1" "7" Scenario.world1).
  vm_compute. reflexivity.
Defined.

Lemma select_node_fallback_witness :
  select_node Scenario.iscsi_opts "9" "0" "V1" Scenario.world1
  = (Ok (mark Scenario.N1),
     log (ELog WARNING
            "initialize_connection: Did not find a preferred node for volume %s."
            [AStr "V1"]) Scenario.world1).
Proof.
  apply (select_node_fallback Scenario.iscsi_opts "9" "0" "V1"
           Scenario.world1 (mark Scenario.N1) []).
  - intros n H. vm_compute in H. destruct H as [<-|[]]. discriminate.
  - reflexivity.
Defined.

Lemma chosen_node_address_witness :
  let out := collect_properties Scenario.V1 Scenario.conn
               Scenario.iscsi_opts 0 None "1" "0" Scenario.world1 in
  (exists n a,
      select_node Scenario.iscsi_opts "1" "0" "V1" Scenario.world1
      = (Ok n, out.2)
      /\ default ∅ (Scenario.returned out.1) !! "target_portal"
         = Some (PStr (a +:+ ":3260"))
      /\ ((exists rest, ipv4 n = a :: rest)
          \/ (ipv4 n = [] /\ exists rest, ipv6 n = a :: rest)))
  /\ (forall n w',
         select_node Scenario.iscsi_opts "1" "0" "V1" Scenario.world1
         = (Ok n, w') ->
         exists a,
           target_ipaddr n = Ok a
           /\ ((exists rest, ipv4 n = a :: rest)
               \/ (ipv4 n = [] /\ exists rest, ipv6 n = a :: rest)))
  /\ out.1 <> Raise IndexError.
Proof.
  intros out.
  destruct (chosen_node_address Scenario.V1 Scenario.conn
              Scenario.iscsi_opts 0 None "1" "0" Scenario.world1)
    as [H1 H2].
  split.
  - apply H1. vm_compute. reflexivity.
  - apply H2.
    + reflexivity.
    + intros n H _. vm_compute in H. destruct H as [<-|[]].
      left. discriminate.
Defined.

(** C7, as it is worded, fails for a volume of another protocol: the
    precondition speaks of the iSCSI-enabled nodes, selection filters
    on [vol_opts['protocol']] (line 193).  After [do_setup] on an
    inventory whose node is enabled for Fibre Channel and has no IP
    address, every iSCSI-enabled node has an address, and a Fibre
    Channel volume makes the address lookup raise [IndexError], in the
    guarded block and for the whole operation. *)
Lemma chosen_node_address_other_protocol :
  addressable (values (storage_nodes Cases.state_fc))
  /\ (collect_properties Scenario.V1 Scenario.conn Cases.fc_opts 0 None
        "4" "0" Cases.world_fc).1 = Raise IndexError
  /\ (run (initialize_connection Cases.helpers_fc Scenario.chap_on
             Scenario.V1 Scenario.conn)
        Scenario.controller0 Cases.state_fc).1 = Raise IndexError.
Proof.
  split.
  - intros n H Hi. vm_compute in H. destruct H as [<-|[]].
    simpl in Hi. intuition discriminate.
  - split; vm_compute; reflexivity.
Qed.

(** ** [terminate_connection] *)

(** Take the next collaborator call apart, by its answer. *)
Ltac answer :=
  match goal with
  | |- context [match ?x with pair _ _ => _ end] =>
      lazymatch x with
      | context [match _ with _ => _ end] => fail
      | _ => destruct x as [[?|?] ?]; simpl
      end
  end.

(** Walk down every path of a straight-line operation. *)
Ltac paths :=
  repeat first
    [ answer
    | match goal with
      | |- context [match ?o with Some _ => _ | None => _ end] =>
          destruct o; simpl
      | |- context [match ?l with [] => _ | _ :: _ => _ end] =>
          destruct l; simpl
      | |- context [if negb (String.eqb ?h "") then _ else _] =>
          destruct (String.eqb_spec h ""); simpl
      | |- context [len_list ?l] => destruct l; simpl
      end ].

(** Find an event in an explicit trace. *)
Ltac in_trace :=
  repeat match goal with
         | H : In _ _ |- _ => simpl in H
         | H : _ \/ _ |- _ => destruct H as [H|H]
         | H : False |- _ => destruct H
         end;
  simplify_eq.



(** C3, as the code has it.  A [terminate_connection] that returns
    answers [{'driver_volume_type': 'iscsi', 'data': {}}] when the
    connector has a ['host'] key, and the empty dictionary when it has
    none; connection properties are returned in neither case. *)
Theorem terminate_connection_descriptor {B} (helpers : Helpers B)
    (v : volume) (c : connector) (w w' : world B) (i : info) :
  terminate_connection helpers v c w = (Ok i, w') ->
  (is_Some (c !! "host") -> i = iscsi_no_data)
  /\ (c !! "host" = None -> i = ∅).
Proof.
  unfold terminate_connection. unfold_monad. simpl.
  destruct (c !! "host") as [hc|] eqn:Ec; simpl.
  all: paths; intros ?; simplify_eq.
  all: split; [intros [? ?]|intros ?]; simplify_eq; reflexivity.
Qed.

Lemma terminate_connection_descriptor_witness :
  (terminate_connection Sim.helpers Scenario.V1 Scenario.conn_host
     Scenario.world2).1 = Ok iscsi_no_data
  /\ (terminate_connection Sim.helpers Scenario.V1 Scenario.conn
        Scenario.world2).1 = Ok ∅.
Proof.
  split.
  - assert (E : terminate_connection Sim.helpers Scenario.V1
                  Scenario.conn_host Scenario.world2
                = (Ok (default ∅ (Scenario.returned
                         (terminate_connection Sim.helpers Scenario.V1
                            Scenario.conn_host Scenario.world2).1)),
                   (terminate_connection Sim.helpers Scenario.V1
                      Scenario.conn_host Scenario.world2).2))
      by (vm_compute; reflexivity).
    destruct (terminate_connection_descriptor _ _ _ _ _ _ E) as [H _].
    rewrite E. simpl. apply (f_equal Ok). apply H. exists "compute1". reflexivity.
  - assert (E : terminate_connection Sim.helpers Scenario.V1
                  Scenario.conn Scenario.world2
                = (Ok (default ∅ (Scenario.returned
                         (terminate_connection Sim.helpers Scenario.V1
                            Scenario.conn Scenario.world2).1)),
                   (terminate_connection Sim.helpers Scenario.V1
                      Scenario.conn Scenario.world2).2))
      by (vm_compute; reflexivity).
    destruct (terminate_connection_descriptor _ _ _ _ _ _ E) as [_ H].
    rewrite E. simpl. apply (f_equal Ok). apply H. reflexivity.
Defined.

(** C3, as it is worded, fails for a connector without a ['host'] key:
    the call completes and answers the empty dictionary, which is not
    the iSCSI descriptor. *)
Lemma terminate_connection_hostless_returns_empty :
  exists i : info,
    (terminate_connection Sim.helpers Scenario.V1 Scenario.conn
       Scenario.world2).1 = Ok i
    /\ i <> iscsi_no_data.
Proof.
  exists ∅. split.
  - vm_compute. reflexivity.
  - intros H.
    assert (E : iscsi_no_data !! "data" = Some (IData ∅))
      by (vm_compute; reflexivity).
    rewrite <- H, lookup_empty in E. discriminate E.
Qed.

Lemma terminate_connection_trace {B} (helpers : Helpers B) (v : volume)
    (c : connector) (w : world B) r w' :
  terminate_connection helpers v c w = (r, w') ->
  exists t, trace w' = trace w ++ enter_terminate v c :: t
            /\ Forall is_teardown t.
Proof.
  unfold terminate_connection. unfold_monad. simpl.
  paths; intros [= <- <-]; simpl; rewrite <- ?app_assoc; simpl;
    eexists; (split; [reflexivity|]); repeat constructor.
Qed.

(** ** [initialize_connection] *)

Lemma select_node_run {B} (opts : vol_opts)
    (preferred_node IO_group_id volume_name : string) (w : world B) :
  exists r logs,
    select_node opts preferred_node IO_group_id volume_name w
    = (r, {| backend := backend w; drv := drv w;
             trace := trace w ++ logs |})
    /\ Forall (fun ev => ~ is_call ev) logs.
Proof.
  unfold select_node. unfold_monad. simpl.
  destruct (scan_nodes _ _ _ _ _ _).2 as [|first others]; simpl.
  - eexists _, [_]. split; [reflexivity|]. repeat constructor. simpl. tauto.
  - destruct (scan_nodes _ _ _ _ _ _).1; simpl.
    + exists (Ok n), []. rewrite app_nil_r. destruct w; auto.
    + eexists _, [_]. split; [reflexivity|]. repeat constructor.
      simpl. tauto.
Qed.

(** The guarded block only reads the state and writes log lines; when
    it returns with a non-empty CHAP secret at hand, the secret is in
    the properties. *)
Lemma collect_properties_run {B} (volume : volume) (c : connector)
    (opts : vol_opts) (lun_id : Z) (chap_secret : option string)
    (preferred_node IO_group_id : string) (w : world B) :
  exists r logs,
    collect_properties volume c opts lun_id chap_secret preferred_node
      IO_group_id w
    = (r, {| backend := backend w; drv := drv w;
             trace := trace w ++ logs |})
    /\ Forall (fun ev => ~ is_call ev) logs
    /\ (forall p secret,
           r = Ok p -> chap_secret = Some secret -> secret <> "" ->
           exists initiator,
             c !! "initiator" = Some initiator
             /\ chap_attached initiator secret p).
Proof.
  unfold collect_properties, bind.
  destruct (select_node_run opts preferred_node IO_group_id
              (vol_name volume) w) as (rn & logs & -> & Hl).
  destruct rn as [n|e].
  2:{ exists (Raise e), logs. split; [reflexivity|]. split; [exact Hl|].
      discriminate. }
  unfold lift. destruct (target_ipaddr n) as [a|e].
  2:{ exists (Raise e), logs. split; [reflexivity|]. split; [exact Hl|].
      discriminate. }
  destruct chap_secret as [secret|]; simpl.
  2:{ eexists _, logs. split; [reflexivity|]. split; [exact Hl|].
      discriminate. }
  destruct (String.eqb_spec secret "") as [->|Hs]; simpl.
  { eexists _, logs. split; [reflexivity|]. split; [exact Hl|].
    intros p s _ [= <-]. tauto. }
  unfold getitem. destruct (c !! "initiator") as [i|]; simpl.
  - eexists _, logs. split; [reflexivity|]. split; [exact Hl|].
    intros p s [= <-] [= <-] _. exists i. split; [reflexivity|].
    unfold chap_attached. repeat split; by simplify_map_eq.
  - eexists _, logs. split; [reflexivity|]. split; [exact Hl|].
    discriminate.
Qed.

Arguments collect_properties : simpl never.
Arguments terminate_connection : simpl never.

(** Take a collaborator call apart, leaving the guarded block and the
    rollback alone. *)
Ltac prologue :=
  repeat first
    [ match goal with
      | |- context [match ?x with pair _ _ => _ end] =>
          lazymatch x with
          | context [collect_properties] => fail
          | context [terminate_connection] => fail
          | context [match _ with _ => _ end] => fail
          | _ => destruct x as [[?|?] ?]; simpl
          end
      end
    | match goal with
      | |- context [match ?o with Some _ => _ | None => _ end] =>
          lazymatch o with
          | context [collect_properties] => fail
          | context [terminate_connection] => fail
          | _ => destruct o eqn:?; simpl
          end
      | |- context [if ?b then _ else _] =>
          lazymatch b with
          | context [collect_properties] => fail
          | context [terminate_connection] => fail
          | _ => destruct b eqn:?; simpl
          end
      end ].

(** Find an event in a trace made of explicit events, log lines of the
    guarded block and the events of a rollback. *)
Ltac no_such_event H F :=
  rewrite Forall_forall in F; apply list_elem_of_In in H; apply F in H;
  simpl in H; tauto.

Ltac trace_cases :=
  cbn [trace backend drv] in *;
  repeat match goal with
         | H : In _ (_ ++ _) |- _ => apply in_app_or in H as [H|H]
         | H : In _ (_ :: _) |- _ =>
             destruct H as [H|H]; [try discriminate H; simplify_eq|]
         | H : In _ [] |- _ => destruct H
         | H : In _ ?l, F : Forall _ ?l |- _ => no_such_event H F
         end;
  simplify_eq.

Lemma truthy_Some (s : string) : truthy (Some s) = true <-> s <> "".
Proof. apply len_str_true. Qed.

(** C2, as the code has it.  With CHAP disabled in the configuration
    and a non-empty secret answered for the host, [initialize_connection]
    logs the mismatch warning and never installs a secret; when it
    returns it has deleted no host, and the returned properties carry
    the existing secret as CHAP credentials, for the session and for
    discovery, under the connector's initiator name. *)
Theorem initialize_connection_chap_disabled {B} (helpers : Helpers B) (cfg : config) (v : volume)
    (c : connector) (b : B) (s : driver_state) r w' h secret :
  storwize_svc_iscsi_chap_enabled cfg = false ->
  run (initialize_connection helpers cfg v c) b s = (r, w') ->
  In (ECall (get_chap_secret_for_host_call h (Ok (Some secret)))) (trace w') ->
  secret <> "" ->
  In chap_mismatch_warning (trace w')
  /\ (forall h' a,
         ~ In (ECall (add_chap_secret_to_host_call h' a)) (trace w'))
  /\ (forall i, r = Ok i ->
         (forall h' d, ~ In (ECall (delete_host_call h' d)) (trace w'))
         /\ exists initiator p,
              c !! "initiator" = Some initiator
              /\ i = {[ "driver_volume_type" := IStr "iscsi";
                        "data" := IData p ]}
              /\ chap_attached initiator secret p).
Proof.
  intros Hcfg. unfold initialize_connection. unfold_monad. simpl.
  rewrite Hcfg. simpl.
  prologue.
  all: try match goal with
       | |- context [collect_properties ?v ?c ?o ?l ?cs ?p ?g ?w] =>
           destruct (collect_properties_run v c o l cs p g w)
             as (rc & logs & -> & Hl & Hc);
           destruct rc as [p0|e0]; simpl;
           [|match goal with
             | |- context [terminate_connection ?h ?v ?c ?w] =>
                 destruct (terminate_connection h v c w) as [[?|?] w2] eqn:Et;
                 apply terminate_connection_trace in Et as (t & Ht & Hd);
                 simpl
             end]
       end.
  all: intros [= <- <-] H Hs.
  all: cbn [trace backend drv] in *; rewrite ?Ht in *.
  all: trace_cases.
  all: try match goal with
       | E : truthy (Some ?s) = false |- _ =>
           apply truthy_Some in Hs; congruence
       end.
  all: split; [unfold chap_mismatch_warning; rewrite ?in_app_iff; simpl;
               auto 20|].
  all: split; [intros h' a' Ha; trace_cases|].
  all: intros i Hi; simplify_eq.
  all: split; [intros h' d' Ha; trace_cases|].
  all: edestruct Hc as (ini & ? & ?); [reflexivity|reflexivity|exact Hs|].
  all: exists ini, p0; auto.
Qed.

Lemma initialize_connection_chap_disabled_witness :
  let run1 := run (initialize_connection Sim.helpers Scenario.chap_off
                     Scenario.V1 Scenario.conn)
                Scenario.controller1 Scenario.state1 in
  In chap_mismatch_warning (trace run1.2)
  /\ (forall h' a,
         ~ In (ECall (add_chap_secret_to_host_call h' a)) (trace run1.2))
  /\ (forall i, run1.1 = Ok i ->
         (forall h' d, ~ In (ECall (delete_host_call h' d)) (trace run1.2))
         /\ exists initiator p,
              Scenario.conn !! "initiator" = Some initiator
              /\ i = {[ "driver_volume_type" := IStr "iscsi";
                        "data" := IData p ]}
              /\ chap_attached initiator "secret-host-iqn.test" p).
Proof.
  intros run1.
  apply (initialize_connection_chap_disabled Sim.helpers Scenario.chap_off
           Scenario.V1 Scenario.conn Scenario.controller1 Scenario.state1
           run1.1 run1.2 "host-iqn.test" "secret-host-iqn.test").
  - reflexivity.
  - apply surjective_pairing.
  - vm_compute. tauto.
  - discriminate.
Defined.

(** C2, as it is worded, fails: with CHAP disabled and a secret on the
    host, the call returns properties that carry the secret. *)
Lemma initialize_connection_chap_disabled_attaches_secret :
  let run1 := run (initialize_connection Sim.helpers Scenario.chap_off
                     Scenario.V1 Scenario.conn)
                Scenario.controller1 Scenario.state1 in
  storwize_svc_iscsi_chap_enabled Scenario.chap_off = false
  /\ In (ECall (get_chap_secret_for_host_call "host-iqn.test"
                  (Ok (Some "secret-host-iqn.test")))) (trace run1.2)
  /\ run1.1 = Ok {[ "driver_volume_type" := IStr "iscsi";
                    "data" := IData Scenario.V1_properties ]}
  /\ Scenario.V1_properties !! "auth_method" = Some (PStr "CHAP")
  /\ Scenario.V1_properties !! "auth_password"
     = Some (PStr "secret-host-iqn.test").
Proof.
  intros run1. split; [reflexivity|].
  split; [vm_compute; tauto|].
  split; [vm_compute; reflexivity|].
  split; vm_compute; reflexivity.
Qed.

(** C1, at a volume whose attributes lack ['preferred_node_id'].  The
    volume gets mapped, the missing attribute raises
    [VolumeBackendAPIException], and the call ends there: no
    [terminate_connection] is entered, nothing is unmapped, and the
    controller keeps the mapping. *)
Theorem initialize_connection_missing_attribute_keeps_mapping :
  let run2 := initialize_connection Sim.helpers Scenario.chap_on
                Scenario.V2 Scenario.conn Scenario.world_V2 in
  run2.1 = Raise (VolumeBackendAPIException
                    "initialize_connection: Missing volume attribute for volume V2.")
  /\ In (ECall (map_vol_to_host_call "V2" "host-iqn.test" true (Ok 0%Z)))
       (trace run2.2)
  /\ ~ In (enter_terminate Scenario.V2 Scenario.conn) (trace run2.2)
  /\ (forall host answer,
         ~ In (ECall (unmap_vol_from_host_call "V2" host answer))
             (trace run2.2))
  /\ Sim.maps (backend run2.2) = [("V2", "host-iqn.test")].
Proof.
  intros run2.
  split; [vm_compute; reflexivity|].
  split; [vm_compute; tauto|].
  split; [intros H; vm_compute in H; intuition discriminate|].
  split; [intros host answer H; vm_compute in H; intuition discriminate|].
  vm_compute. reflexivity.
Qed.

(** * Further properties *)

(** ** Node selection: the preferred node *)

Lemma scan_nodes_preferred_kept protocol preferred_node IO_group_id nodes :
  forall pe ign,
    is_Some pe ->
    is_Some
      (scan_nodes protocol preferred_node IO_group_id nodes pe ign).1.
Proof.
  induction nodes as [|n rest IH]; intros pe ign Hpe; simpl; [exact Hpe|].
  case_bool_decide; [apply IH; exact Hpe|].
  apply IH. case_bool_decide; [eauto|exact Hpe].
Qed.

Lemma scan_nodes_preferred_present protocol preferred_node IO_group_id nodes :
  (exists n, In n (filtered protocol nodes) /\ id n = preferred_node) ->
  forall pe ign,
    is_Some
      (scan_nodes protocol preferred_node IO_group_id nodes pe ign).1.
Proof.
  unfold filtered.
  induction nodes as [|n rest IH]; intros (m & Hm & Hid) pe ign; simpl.
  - destruct Hm.
  - rewrite filter_cons in Hm. case_bool_decide as Hp.
    + rewrite decide_False in Hm by exact Hp. apply IH. eauto.
    + rewrite decide_True in Hm
        by (destruct (decide (protocol ∈ enabled_protocols n)); tauto).
      destruct Hm as [->|Hm].
      * rewrite bool_decide_eq_true_2 by exact Hid.
        apply scan_nodes_preferred_kept. eauto.
      * apply IH. eauto.
Qed.

Lemma scan_nodes_preferred_id protocol preferred_node IO_group_id nodes :
  forall pe ign n,
    (scan_nodes protocol preferred_node IO_group_id nodes pe ign).1 = Some n ->
    pe = Some n
    \/ (In n (filtered protocol nodes) /\ id n = preferred_node).
Proof.
  unfold filtered.
  induction nodes as [|m rest IH]; intros pe ign n; simpl; [auto|].
  rewrite filter_cons. case_bool_decide as Hp.
  - rewrite decide_False by exact Hp. apply IH.
  - rewrite decide_True
      by (destruct (decide (protocol ∈ enabled_protocols m)); tauto).
    intros H. apply IH in H as [H1|[H1 Hid]]; [|simpl; auto].
    case_bool_decide as Hm; [|auto]. injection H1 as <-. simpl. auto.
Qed.

(** X1. When some node that supports the protocol carries the volume's
    preferred node id and the I/O group has a candidate, selection
    answers a protocol-enabled node with that id and logs nothing; the
    node is taken whether or not it belongs to the volume's I/O
    group. *)
Theorem select_node_preferred {B} (opts : vol_opts)
    (preferred_node IO_group_id volume_name : string) (w : world B) :
  (exists n, In n (filtered (protocol opts) (values (storage_nodes (drv w))))
             /\ id n = preferred_node) ->
  candidates (protocol opts) IO_group_id (values (storage_nodes (drv w)))
  <> [] ->
  exists m,
    select_node opts preferred_node IO_group_id volume_name w = (Ok m, w)
    /\ id m = preferred_node
    /\ In m (filtered (protocol opts) (values (storage_nodes (drv w)))).
Proof.
  intros Hpref Hcand. unfold select_node. unfold_monad. simpl.
  rewrite scan_nodes_candidates. simpl.
  destruct (candidates _ _ _) as [|first others]; [congruence|].
  destruct (scan_nodes_preferred_present _ _ IO_group_id _ Hpref None [])
    as [m Hm].
  rewrite Hm. exists m. split; [reflexivity|].
  apply scan_nodes_preferred_id in Hm as [Hm|Hm]; [discriminate|tauto].
Qed.

(** ** [do_setup]: what pruning keeps *)

Lemma filter_ext_in {A} (P Q : A -> Prop)
    `{!forall x, Decision (P x), !forall x, Decision (Q x)} (l : list A) :
  (forall x, In x l -> (P x <-> Q x)) -> filter P l = filter Q l.
Proof.
  induction l as [|a l IH]; intros Hext; [reflexivity|].
  rewrite !filter_cons.
  destruct (decide (P a)) as [Hp|Hp]; destruct (decide (Q a)) as [Hq|Hq].
  - rewrite IH; [reflexivity|]. intros x Hx. apply Hext. simpl. auto.
  - exfalso. apply Hq, (Hext a); simpl; auto.
  - exfalso. apply Hp, (Hext a); simpl; auto.
  - apply IH. intros x Hx. apply Hext. simpl. auto.
Qed.

Lemma foldl_dict_del_filter {A} (ks : list string) :
  forall d : list (string * A),
    foldl (fun d delkey => dict_del delkey d) d ks
    = filter (fun kv => kv.1 ∉ ks) d.
Proof.
  induction ks as [|k ks IH]; intros d; simpl.
  - induction d as [|a d IHd]; [reflexivity|].
    rewrite filter_cons_True by apply not_elem_of_nil. congruence.
  - rewrite IH. unfold dict_del. rewrite list_filter_filter.
    apply list_filter_iff. intros kv. rewrite not_elem_of_cons. tauto.
Qed.

Lemma in_doomed_inv (items : list (string * node)) k :
  In k (doomed items) ->
  exists n0, In (k, n0) items /\ enabled_protocols (mark n0) = [].
Proof.
  induction items as [|[k' n'] rest IH]; simpl; [tauto|].
  destruct (len_list (enabled_protocols (mark n'))) eqn:E.
  - intros H. destruct (IH H) as (n0 & ? & ?). eauto.
  - intros [<-|H].
    + exists n'. split; [auto|]. apply len_list_false. exact E.
    + destruct (IH H) as (n0 & ? & ?). eauto.
Qed.

Lemma NoDup_fst_unique {A} (l : list (string * A)) k a1 a2 :
  List.NoDup (map fst l) -> In (k, a1) l -> In (k, a2) l -> a1 = a2.
Proof.
  induction l as [|[k' a'] l IH]; simpl; [tauto|].
  intros Hnd. inversion Hnd as [|? ? Hk Hnd']; subst.
  intros [[= -> ->]|H1] [[= <-]|H2]; try reflexivity.
  - exfalso. apply Hk. apply (in_map fst) in H2. exact H2.
  - exfalso. subst. apply Hk. apply (in_map fst) in H1. exact H1.
  - auto.
Qed.

(** On a dictionary (no key twice), the two loops of [do_setup] keep
    the marked items that have a protocol, in order. *)
Lemma pruned_with_protocol (items : list (string * node)) :
  List.NoDup (map fst items) -> pruned items = with_protocol (marked items).
Proof.
  intros Hnd. unfold pruned, with_protocol.
  rewrite foldl_dict_del_filter. apply filter_ext_in.
  intros [k n] Hin. simpl. apply in_marked in Hin as (n0 & Hin & ->).
  split.
  - intros Hk E. apply Hk, list_elem_of_In. eapply in_doomed; eauto.
  - intros Hne Hk. apply list_elem_of_In in Hk.
    apply in_doomed_inv in Hk as (n1 & Hin1 & E).
    rewrite (NoDup_fst_unique items k n0 n1 Hnd Hin Hin1) in Hne. tauto.
Qed.

(** X2. Pruning is a filter: given an inventory without duplicate keys,
    [do_setup] leaves in [self._state['storage_nodes']] exactly the
    nodes that have a protocol once iSCSI has been appended where it
    applies, in inventory order. *)
Theorem do_setup_prunes_by_filter {B} (helpers : Helpers B) (b : B)
    (s : driver_state) r w' nodes0 nodes :
  run (do_setup helpers) b s = (r, w') ->
  In (ECall (add_iscsi_ip_addrs_call nodes0 (Ok nodes))) (trace w') ->
  List.NoDup (map fst nodes) ->
  storage_nodes (drv w') = with_protocol (marked nodes).
Proof.
  intros Hrun Hev Hnd.
  destruct (do_setup_run helpers b s r w' Hrun) as [Hp _].
  destruct (Hp nodes0 nodes Hev) as [-> _].
  apply pruned_with_protocol. exact Hnd.
Qed.

(** X3. Pruning never drops a configured node: a node of the inventory
    with an IPv4 or IPv6 address and a non-empty iSCSI name is still in
    [self._state['storage_nodes']] after [do_setup], under its key and
    with 'iSCSI' appended to its protocols. *)
Theorem do_setup_keeps_configured_nodes {B} (helpers : Helpers B) (b : B)
    (s : driver_state) r w' nodes0 nodes k n :
  run (do_setup helpers) b s = (r, w') ->
  In (ECall (add_iscsi_ip_addrs_call nodes0 (Ok nodes))) (trace w') ->
  List.NoDup (map fst nodes) ->
  In (k, n) nodes ->
  ipv4 n <> [] \/ ipv6 n <> [] ->
  iscsi_name n <> "" ->
  In (k, append_protocol "iSCSI" n) (storage_nodes (drv w'))
  /\ r = Ok tt.
Proof.
  intros Hrun Hev Hnd Hin Hip Hname.
  destruct (do_setup_run helpers b s r w' Hrun) as [Hp _].
  destruct (Hp nodes0 nodes Hev) as [-> ->].
  assert (Hs : supports_iscsi n = true).
  { unfold supports_iscsi. apply andb_true_iff. split.
    - apply orb_true_iff. rewrite !len_list_true. exact Hip.
    - apply len_str_true. exact Hname. }
  assert (Hk : In (k, append_protocol "iSCSI" n) (pruned nodes)).
  { rewrite pruned_with_protocol by exact Hnd. unfold with_protocol.
    apply list_elem_of_In, list_elem_of_filter. split.
    - simpl. destruct (enabled_protocols n); discriminate.
    - apply list_elem_of_In, in_marked. exists n. split; [exact Hin|].
      unfold mark. rewrite Hs. reflexivity. }
  split; [exact Hk|].
  destruct (pruned nodes); [destruct Hk|reflexivity].
Qed.

(** ** [terminate_connection]: what it asks of the controller *)

Lemma terminate_connection_state {B} (helpers : Helpers B) (v : volume)
    (c : connector) (w : world B) r w' :
  terminate_connection helpers v c w = (r, w') -> drv w' = drv w.
Proof.
  unfold terminate_connection. unfold_monad. simpl.
  paths; intros [= <- <-]; reflexivity.
Qed.

Lemma terminate_connection_events {B} (helpers : Helpers B) (v : volume)
    (c : connector) (w : world B) r w' :
  terminate_connection helpers v c w = (r, w') ->
  exists t, trace w' = trace w ++ enter_terminate v c :: t
            /\ Forall (is_teardown_event v c) t.
Proof.
  unfold terminate_connection. unfold_monad. simpl.
  paths; intros [= <- <-]; simpl; rewrite <- ?app_assoc; simpl;
    eexists; (split; [reflexivity|]);
    repeat (constructor; [unfold is_teardown_event; simpl; tauto|]);
    constructor.
Qed.

(** X4. [terminate_connection] logs its entry first, then talks to the
    controller through [get_host_from_connector], [unmap_vol_from_host],
    [check_host_mapped_vols] and [delete_host] only -- it never creates
    a host, maps a volume or touches a CHAP secret -- and it leaves
    [self._state] as it found it. *)
Theorem terminate_connection_interactions {B} (helpers : Helpers B)
    (v : volume) (c : connector) (w : world B) r w' :
  terminate_connection helpers v c w = (r, w') ->
  drv w' = drv w
  /\ exists t, trace w' = trace w ++ enter_terminate v c :: t
               /\ Forall (is_teardown_event v c) t.
Proof.
  intros Hrun. split.
  - eapply terminate_connection_state; eauto.
  - eapply terminate_connection_events; eauto.
Qed.

(** X5. A connector that names a host the controller does not know
    makes [terminate_connection] raise [VolumeDriverException] before
    anything is unmapped or deleted. *)
Theorem terminate_connection_unknown_host {B} (helpers : Helpers B)
    (v : volume) (c c' : connector) (b : B) (s : driver_state) r w' :
  run (terminate_connection helpers v c) b s = (r, w') ->
  In (ECall (get_host_from_connector_call c' (Ok None))) (trace w') ->
  r = Raise (VolumeDriverException
               "terminate_connection: Failed to get host name from connector.")
  /\ (forall vol arg a,
         ~ In (ECall (unmap_vol_from_host_call vol arg a)) (trace w'))
  /\ (forall h d, ~ In (ECall (delete_host_call h d)) (trace w')).
Proof.
  unfold terminate_connection. unfold_monad. simpl.
  paths; intros [= <- <-] H; in_trace.
  repeat split; intros; intros Hn; in_trace.
Qed.

(** X6. The host handed to [unmap_vol_from_host]: for a connector
    without a ['host'] key no host is looked up and the unmap is asked
    with no host name (the controller finds it from the volume); for a
    connector with the key the unmap gets the name
    [get_host_from_connector] answered.  The volume is always the
    call's own. *)
Theorem terminate_connection_unmap_argument {B} (helpers : Helpers B)
    (v : volume) (c : connector) (b : B) (s : driver_state) r w' vol arg a :
  run (terminate_connection helpers v c) b s = (r, w') ->
  In (ECall (unmap_vol_from_host_call vol arg a)) (trace w') ->
  vol = vol_name v
  /\ ((c !! "host" = None /\ arg = None
       /\ forall c' a', ~ In (ECall (get_host_from_connector_call c' a'))
                          (trace w'))
      \/ (is_Some (c !! "host")
          /\ exists h, arg = Some h
                       /\ In (ECall (get_host_from_connector_call c
                                       (Ok (Some h)))) (trace w'))).
Proof.
  unfold terminate_connection. unfold_monad. simpl.
  destruct (c !! "host") as [hc|] eqn:Ec; simpl.
  all: paths; intros [= <- <-] H; in_trace.
  all: split; [reflexivity|].
  all: first [ right; split; [eauto|]; eexists; split; [reflexivity|];
               simpl; auto 10
             | left; split; [reflexivity|]; split; [reflexivity|];
               intros c' a' Hn; in_trace ].
Qed.

(** X7. When the unmap affects no host (it answers [None] or an empty
    name), [terminate_connection] returns without asking for the
    host's mappings and without deleting anything. *)
Theorem terminate_connection_no_host_affected {B} (helpers : Helpers B)
    (v : volume) (c : connector) (b : B) (s : driver_state) r w' vol arg o :
  run (terminate_connection helpers v c) b s = (r, w') ->
  In (ECall (unmap_vol_from_host_call vol arg (Ok o))) (trace w') ->
  truthy o = false ->
  (exists i, r = Ok i)
  /\ (forall h a, ~ In (ECall (check_host_mapped_vols_call h a)) (trace w'))
  /\ (forall h d, ~ In (ECall (delete_host_call h d)) (trace w')).
Proof.
  unfold terminate_connection. unfold_monad. simpl.
  paths; intros [= <- <-] H Ho; in_trace.
  all: try (simpl in Ho; rewrite negb_false_iff, String.eqb_eq in Ho;
            congruence).
  all: repeat split; eauto; intros; intros Hn; in_trace.
Qed.

(** X8. [terminate_connection] never deletes a host that still has a
    mapping: every [delete_host] it issues is for the host the unmap
    answered, after [check_host_mapped_vols] answered an empty list for
    that host. *)
Theorem terminate_connection_deletes_only_orphans {B}
    (helpers : Helpers B) (v : volume) (c : connector) (b : B)
    (s : driver_state) r w' h d :
  run (terminate_connection helpers v c) b s = (r, w') ->
  In (ECall (delete_host_call h d)) (trace w') ->
  In (ECall (check_host_mapped_vols_call h (Ok []))) (trace w')
  /\ exists arg,
       In (ECall (unmap_vol_from_host_call (vol_name v) arg (Ok (Some h))))
         (trace w').
Proof.
  unfold terminate_connection. unfold_monad. simpl.
  paths; intros [= <- <-] H; in_trace.
  all: split; [simpl; auto 10|eexists; simpl; auto 10].
Qed.

(** ** [initialize_connection]: the guarded block in full *)

Lemma append_port (a : string) : a +:+ ":" +:+ "3260" = a +:+ ":3260".
Proof. reflexivity. Qed.

Lemma select_node_logs {B} (opts : vol_opts)
    (preferred_node IO_group_id volume_name : string) (w : world B) :
  exists r logs,
    select_node opts preferred_node IO_group_id volume_name w
    = (r, {| backend := backend w; drv := drv w;
             trace := trace w ++ logs |})
    /\ ((r = Raise (VolumeBackendAPIException
                     (no_node_in_group IO_group_id volume_name))
         /\ logs = [ELog ERROR (no_node_in_group IO_group_id volume_name)
                      []])
        \/ (exists n, r = Ok n
                      /\ (logs = []
                          \/ logs = [no_preferred_node_warning
                                       volume_name]))).
Proof.
  unfold select_node. unfold_monad. simpl.
  destruct (scan_nodes _ _ _ _ _ _).2 as [|first others]; simpl.
  - eexists _, [_]. split; [reflexivity|]. left. split; reflexivity.
  - destruct (scan_nodes _ _ _ _ _ _).1; simpl.
    + exists (Ok n), []. rewrite app_nil_r. destruct w; eauto 6.
    + eexists _, [_]. split; [reflexivity|]. right. eauto.
Qed.

(** What the guarded block answers: the description of the chosen
    target, with the CHAP entries exactly when a non-empty secret is at
    hand; the three ways it can fail; and the one line it may log. *)
Lemma collect_properties_full {B} (volume : volume) (c : connector)
    (opts : vol_opts) (lun_id : Z) (chap_secret : option string)
    (preferred_node IO_group_id : string) (w : world B) :
  exists r logs,
    collect_properties volume c opts lun_id chap_secret preferred_node
      IO_group_id w
    = (r, {| backend := backend w; drv := drv w;
             trace := trace w ++ logs |})
    /\ (forall p,
           r = Ok p ->
           guard_success volume c (drv w) opts lun_id chap_secret p logs)
    /\ (forall e,
           r = Raise e -> guard_failure volume c IO_group_id e logs).
Proof.
  unfold guard_success, guard_failure.
  unfold collect_properties, bind.
  destruct (select_node opts preferred_node IO_group_id (vol_name volume) w)
    as [rn w1] eqn:Es.
  destruct (select_node_logs opts preferred_node IO_group_id
              (vol_name volume) w) as (rn' & logs & Es' & Hl).
  rewrite Es in Es'. injection Es' as <- ->.
  destruct Hl as [[-> ->]|(n & -> & Hl)].
  { eexists _, _. split; [reflexivity|]. split; [discriminate|].
    intros e' [= <-]. auto. }
  pose proof (select_node_in _ _ _ _ _ _ _ Es) as Hn.
  unfold lift. destruct (target_ipaddr n) as [a|e] eqn:Ea.
  2:{ exists (Raise e), logs. split; [reflexivity|].
      split; [discriminate|]. intros e' [= <-]. right.
      split; [left|exact Hl].
      rewrite target_ipaddr_first in Ea.
      destruct (ipv4 n), (ipv6 n); congruence. }
  assert (Hd : forall p,
             target_described volume lun_id n a
               (<["target_iqn":=PStr (iscsi_name n)]>
                  (<["target_portal":=PStr (a +:+ ":" +:+ "3260")]>
                     (<["volume_id":=PStr (vol_id volume)]>
                        (<["target_lun":=PInt lun_id]>
                           (<["target_discovered":=PBool false]> p)))))).
  { intros p. unfold target_described. rewrite append_port.
    repeat split; by simplify_map_eq. }
  destruct chap_secret as [secret|]; simpl.
  2:{ eexists _, logs. split; [reflexivity|].
      split; [|discriminate]. intros p [= <-]. split; [exact Hl|].
      split; [eauto|].
      split; [|discriminate]. intros _. unfold no_chap.
      repeat split; by simplify_map_eq. }
  destruct (String.eqb_spec secret "") as [->|Hs]; simpl.
  { eexists _, logs. split; [reflexivity|].
    split; [|discriminate]. intros p [= <-]. split; [exact Hl|].
    split; [eauto|].
    split; [|intros s [= <-]; tauto]. intros _. unfold no_chap.
    repeat split; by simplify_map_eq. }
  unfold getitem. destruct (c !! "initiator") as [i|] eqn:Ei; simpl.
  - eexists _, logs. split; [reflexivity|].
    split; [|discriminate]. intros p [= <-]. split; [exact Hl|]. split.
    { exists n, a. split; [exact Hn|]. split; [exact Ea|].
      unfold target_described. rewrite append_port.
      repeat split; by simplify_map_eq. }
    split; [discriminate|]. intros s [= <-] _. exists i.
    split; [reflexivity|]. unfold chap_attached.
    repeat split; by simplify_map_eq.
  - eexists _, logs. split; [reflexivity|].
    split; [discriminate|]. intros e [= <-]. auto.
Qed.

(** ** [initialize_connection]: the whole operation *)

(** Open the guarded block with its full description and, when it
    fails, the rollback. *)
Ltac guarded_full :=
  try match goal with
      | |- context [collect_properties ?v ?c ?o ?l ?cs ?p ?g ?w] =>
          destruct (collect_properties_full v c o l cs p g w)
            as (rc & logs & Ec & Hok & Hraise);
          pose proof (select_node_empty_group v c o l cs p g w) as Hempty;
          cbv zeta in Hempty; rewrite Ec in Hempty;
          rewrite Ec;
          destruct rc as [p0|e0]; simpl;
          [specialize (Hok p0 eq_refl); clear Hraise;
           assert (Hcand : ~ no_candidate (drv w) o g)
             by (intros He; destruct (Hempty He) as [_ Hx]; discriminate Hx);
           cbn [drv] in Hcand
          |specialize (Hraise e0 eq_refl); clear Hok;
           assert (Hcand : no_candidate (drv w) o g ->
                           e0 = VolumeBackendAPIException
                                  (no_node_in_group g (vol_name v)))
             by (intros He; destruct (Hempty He) as [_ Hx]; congruence);
           cbn [drv] in Hcand;
           match goal with
           | |- context [terminate_connection ?h ?v ?c ?w] =>
               destruct (terminate_connection h v c w) as [[?|?] w2] eqn:Et;
               pose proof (terminate_connection_state _ _ _ _ _ _ Et) as Hst;
               apply terminate_connection_events in Et as (t & Ht & Hd);
               simpl
           end];
          clear Hempty
      end.

(** Find the shape of a path, from the inside out. *)
Ltac solve_guarded :=
  first [ eapply gs_returned; eassumption
        | eapply gs_rolled_back; eassumption
        | eapply gs_rollback_failed; eassumption ].

Ltac solve_mapped :=
  first [ eapply ms_no_preferred_node; eassumption
        | eapply ms_no_IO_group; eassumption
        | eapply ms_guarded; [eassumption|eassumption|solve_guarded] ].

Ltac solve_chap :=
  first [ apply cs_attributes_failed
        | apply cs_no_attributes
        | apply cs_map_failed
        | eapply cs_mapped; solve_mapped ].

Ltac solve_host :=
  first [ apply hs_query_failed
        | apply hs_install_failed; assumption
        | eapply hs_installed; [assumption|solve_chap]
        | eapply hs_reused; [assumption|solve_chap]
        | eapply hs_mismatch; [assumption|assumption|solve_chap]
        | eapply hs_plain; [assumption|assumption|solve_chap] ].

Ltac solve_shape :=
  first [ apply is_params_failed
        | apply is_lookup_failed
        | apply is_create_failed
        | eapply is_found; solve_host
        | eapply is_created; solve_host ].

(** Every run of [initialize_connection] has one of the shapes of the
    grammar, and leaves the driver state alone. *)
Lemma initialize_connection_shape {B} (helpers : Helpers B) (cfg : config)
    (v : volume) (c : connector) (b : B) (s : driver_state) r w' :
  run (initialize_connection helpers cfg v c) b s = (r, w') ->
  initialize_shape cfg v c s r (trace w') /\ drv w' = s.
Proof.
  unfold initialize_connection. unfold_monad. simpl.
  destruct (storwize_svc_iscsi_chap_enabled cfg) eqn:Hchap; simpl.
  all: prologue; guarded_full.
  all: intros [= <- <-]; (split; [|cbn [drv] in *; congruence]).
  all: cbn [trace backend drv] in *; rewrite ?Ht; simpl.
  all: rewrite <- ?app_assoc; simpl.
  all: repeat match goal with
              | H : bool_decide _ = true |- _ =>
                  apply bool_decide_eq_true in H
              | H : bool_decide _ = false |- _ =>
                  apply bool_decide_eq_false in H
              | H : truthy (Some ?x) = true |- _ =>
                  apply truthy_Some in H
              | H : ?x <> None |- _ =>
                  destruct x; [clear H|congruence]
              | H : truthy ?x = true |- _ =>
                  destruct x; [|discriminate H]
              end; subst.
  all: solve_shape.
Qed.

(** Read a property off the grammar: all the shapes, with the log lines
    of the guarded block spelled out. *)
Ltac shapes :=
  repeat match goal with
         | H : initialize_shape _ _ _ _ _ _ |- _ =>
             inversion H; clear H; subst
         | H : host_shape _ _ _ _ _ _ _ _ |- _ =>
             inversion H; clear H; subst
         | H : chap_shape _ _ _ _ _ _ _ _ _ |- _ =>
             inversion H; clear H; subst
         | H : mapped_shape _ _ _ _ _ _ _ _ _ |- _ =>
             inversion H; clear H; subst
         | H : guarded_shape _ _ _ _ _ _ _ _ _ |- _ =>
             inversion H; clear H; subst
         end.

Ltac guard_logs :=
  repeat match goal with
         | H : guard_success _ _ _ _ _ _ _ _ |- _ =>
             destruct H as ([->| ->] & (? & ? & ? & ? & ?) & ? & ?)
         | H : guard_failure _ _ _ _ _ |- _ =>
             destruct H as [[-> ->]|[? [->| ->]]]
         end.

Ltac unfold_events :=
  unfold enter_terminate, enter_initialize, chap_mismatch_warning,
    missing_column, leave_initialize, no_preferred_node_warning,
    collect_failed, original_dropped in *.

(** An event of the rollback is one of [terminate_connection]'s. *)
Ltac in_rollback :=
  repeat match goal with
         | H : In _ ?t, F : Forall (is_teardown_event _ _) ?t |- _ =>
             let F' := fresh in
             pose proof F as F';
             rewrite Forall_forall in F'; apply list_elem_of_In in H;
             apply F' in H; clear F';
             unfold is_teardown_event, leave_terminate in H;
             destruct H as [H|[H|H]];
             [try discriminate H|try discriminate H|try (destruct H; fail)]
         end.

(** From a run to its shape, the trace made a variable. *)
Ltac read_shape Hrun :=
  let Hs := fresh "Hs" in
  let Hst := fresh "Hst" in
  apply initialize_connection_shape in Hrun as [Hs Hst];
  match type of Hs with
  | initialize_shape _ _ _ _ _ (trace ?w) =>
      let tr := fresh "tr" in
      let E := fresh "E" in
      remember (trace w) as tr eqn:E in *; clear E
  end.

(** Follow an event down the grammar: a shape is only opened when an
    event is known to lie in its trace. *)
Ltac open_shape :=
  match goal with
  | H : In _ ?tr, Hs : initialize_shape _ _ _ _ _ ?tr |- _ =>
      inversion Hs; clear Hs; subst
  | H : In _ ?tr, Hs : host_shape _ _ _ _ _ _ _ ?tr |- _ =>
      inversion Hs; clear Hs; subst
  | H : In _ ?tr, Hs : chap_shape _ _ _ _ _ _ _ _ ?tr |- _ =>
      inversion Hs; clear Hs; subst
  | H : In _ ?tr, Hs : mapped_shape _ _ _ _ _ _ _ _ ?tr |- _ =>
      inversion Hs; clear Hs; subst
  | H : In _ ?tr, Hs : guarded_shape _ _ _ _ _ _ _ _ ?tr |- _ =>
      inversion Hs; clear Hs; subst
  | H : In _ ?logs, Hg : guard_success _ _ _ _ _ _ _ ?logs |- _ =>
      destruct Hg as ([->| ->] & (? & ? & ? & ? & ?) & ? & ?)
  | H : In _ ?logs, Hg : guard_failure _ _ _ _ ?logs |- _ =>
      destruct Hg as [[-> ->]|[? [->| ->]]]
  end;
  unfold_events.

Ltac follow :=
  unfold_events;
  repeat (trace_cases; in_rollback; try open_shape).

(** X9. [initialize_connection] leaves [self._state] as it found it,
    whatever the outcome: the node inventory is only read. *)
Theorem initialize_connection_state {B} (helpers : Helpers B)
    (cfg : config) (v : volume) (c : connector) (b : B) (s : driver_state)
    r w' :
  run (initialize_connection helpers cfg v c) b s = (r, w') -> drv w' = s.
Proof. intros H. apply initialize_connection_shape in H. tauto. Qed.

(** X11. A volume the controller has no attributes for is never
    mapped: [initialize_connection] raises [VolumeDriverException]
    ('Failed to get attributes') before [map_vol_to_host], and no
    rollback is needed. *)
Theorem initialize_connection_no_attributes {B} (helpers : Helpers B)
    (cfg : config) (v : volume) (c : connector) (b : B) (s : driver_state)
    r w' vol :
  run (initialize_connection helpers cfg v c) b s = (r, w') ->
  In (ECall (get_vdisk_attributes_call vol (Ok None))) (trace w') ->
  r = Raise (no_attributes (vol_name v))
  /\ (forall vol' h m a,
         ~ In (ECall (map_vol_to_host_call vol' h m a)) (trace w'))
  /\ ~ In (enter_terminate v c) (trace w').
Proof.
  intros Hrun H. read_shape Hrun. follow.
  all: split; [reflexivity|].
  all: split; [intros vol' h' m a Hn|intros Hn]; trace_cases.
Qed.

(** X14. Failures after the mapping: when [initialize_connection]
    raises although [map_vol_to_host] had answered, either
    [terminate_connection] was entered for the same volume and
    connector, or the failure is the missing [lsvdisk] column, which is
    raised before the guarded block. *)
Theorem initialize_connection_failure_after_mapping {B}
    (helpers : Helpers B) (cfg : config) (v : volume) (c : connector)
    (b : B) (s : driver_state) e w' vol h m lun :
  run (initialize_connection helpers cfg v c) b s = (Raise e, w') ->
  In (ECall (map_vol_to_host_call vol h m (Ok lun))) (trace w') ->
  In (enter_terminate v c) (trace w')
  \/ (e = missing_attribute (vol_name v)
      /\ exists key, In (missing_column key) (trace w')).
Proof.
  intros Hrun H. read_shape Hrun. follow.
  all: match goal with
       | Hs : mapped_shape _ _ _ _ _ _ _ _ _ |- _ =>
           inversion Hs; clear Hs; subst
       end.
  all: try (right; split; [reflexivity|]; eexists; simpl; auto 10; fail).
  all: match goal with
       | Hs : guarded_shape _ _ _ _ _ _ _ _ _ |- _ =>
           inversion Hs; clear Hs; subst
       end.
  all: left; simpl; rewrite ?in_app_iff; simpl; auto 20.
Qed.

(** X15. CHAP enabled: a secret is installed exactly when the host has
    none.  When [get_chap_secret_for_host] answers no secret,
    [add_chap_secret_to_host] is called for that host; when it answers
    one, no secret is installed; and a call that returns carries the
    secret at hand, when it is not empty, as CHAP credentials. *)
Theorem initialize_connection_chap_enabled {B} (helpers : Helpers B)
    (cfg : config) (v : volume) (c : connector) (b : B) (s : driver_state)
    r w' h cs :
  storwize_svc_iscsi_chap_enabled cfg = true ->
  run (initialize_connection helpers cfg v c) b s = (r, w') ->
  In (ECall (get_chap_secret_for_host_call h (Ok cs))) (trace w') ->
  (cs = None ->
   exists a, In (ECall (add_chap_secret_to_host_call h a)) (trace w'))
  /\ (forall h' a,
         In (ECall (add_chap_secret_to_host_call h' a)) (trace w') ->
         h' = h /\ cs = None)
  /\ (forall i, r = Ok i ->
      exists secret p,
        (cs = Some secret
         \/ (cs = None
             /\ In (ECall (add_chap_secret_to_host_call h (Ok secret)))
                  (trace w')))
        /\ i = iscsi_info p
        /\ (secret <> "" ->
            exists initiator,
              c !! "initiator" = Some initiator
              /\ chap_attached initiator secret p)).
Proof.
  intros Hcfg Hrun H. read_shape Hrun. follow.
  all: try congruence.
  all: split; [intros E; try discriminate E; eexists; simpl; auto 10|].
  all: split; [intros h' a' Ha; follow; auto|].
  all: intros i Hi.
  all: shapes; try discriminate.
  all: match goal with
       | Hg : guard_success _ _ _ _ _ _ _ _ |- _ =>
           destruct Hg as (_ & _ & _ & Hsecret)
       end.
  all: try match goal with Hi : Ok _ = Ok _ |- _ => injection Hi as <- end.
  all: eexists _, _; split; [|split; [reflexivity|]].
  all: try (left; reflexivity).
  all: try (right; split; [reflexivity|]; simpl; auto 10).
  all: intros Hne; apply Hsecret; auto.
Qed.
(** X16. What a returning [initialize_connection] answers: the iSCSI
    descriptor around properties that describe a node of the inventory
    that supports the volume's protocol, reached at its first address,
    with the LUN [map_vol_to_host] answered for this volume; the leave
    line is the last event, and nothing was unmapped or deleted on the
    way. *)
Theorem initialize_connection_returns {B} (helpers : Helpers B)
    (cfg : config) (v : volume) (c : connector) (b : B) (s : driver_state)
    i w' :
  run (initialize_connection helpers cfg v c) b s = (Ok i, w') ->
  exists opts h lun_id p n a,
    In (ECall (get_vdisk_params_call (volume_type_id v) (Ok opts)))
      (trace w')
    /\ In (ECall (map_vol_to_host_call (vol_name v) h
                    (storwize_svc_multihostmap_enabled cfg) (Ok lun_id)))
         (trace w')
    /\ i = iscsi_info p
    /\ In n (filtered (protocol opts) (values (storage_nodes s)))
    /\ target_ipaddr n = Ok a
    /\ target_described v lun_id n a p
    /\ last (trace w') = Some (leave_initialize v c p)
    /\ Forall (fun ev => ~ is_undo ev) (trace w')
    /\ ~ In (enter_terminate v c) (trace w').
Proof.
  intros Hrun. read_shape Hrun. shapes.
  all: match goal with
       | Hg : guard_success _ _ _ _ _ _ _ _ |- _ =>
           destruct Hg as (Hl & (n & a & Hn & Ha & Hd) & _ & _)
       end.
  all: eexists _, _, _, _, n, a.
  all: split; [simpl; auto 10|].
  all: split; [simpl; auto 10|].
  all: split; [reflexivity|].
  all: split; [exact Hn|]; split; [exact Ha|]; split; [exact Hd|].
  all: destruct Hl as [->| ->]; simpl.
  all: split; [reflexivity|].
  all: split; [repeat constructor; simpl; tauto|].
  all: unfold_events; intros Hn'.
  all: repeat (destruct Hn' as [Hn'|Hn']; [discriminate Hn'|]); destruct Hn'.
Qed.

(** X17. CHAP disabled and no secret on the host: no secret is
    installed, no warning is logged, and a call that returns answers
    properties without any CHAP entry. *)
Theorem initialize_connection_plain {B} (helpers : Helpers B)
    (cfg : config) (v : volume) (c : connector) (b : B) (s : driver_state)
    r w' h cs :
  storwize_svc_iscsi_chap_enabled cfg = false ->
  run (initialize_connection helpers cfg v c) b s = (r, w') ->
  In (ECall (get_chap_secret_for_host_call h (Ok cs))) (trace w') ->
  truthy cs = false ->
  ~ In chap_mismatch_warning (trace w')
  /\ (forall h' a,
         ~ In (ECall (add_chap_secret_to_host_call h' a)) (trace w'))
  /\ (forall i, r = Ok i -> exists p, i = iscsi_info p /\ no_chap p).
Proof.
  intros Hcfg Hrun H Hcs. read_shape Hrun. follow.
  all: try congruence.
  all: try match goal with
           | Hne : ?x <> "", Ht : truthy (Some ?x) = false |- _ =>
               apply truthy_Some in Hne; congruence
           end.
  all: split; [intros Hn; follow|].
  all: split; [intros h' a' Hn; follow|].
  all: intros i Hi.
  all: shapes; try discriminate.
  all: match goal with
       | Hg : guard_success _ _ _ _ _ _ _ _ |- _ =>
           destruct Hg as (_ & _ & Hno & _)
       end.
  all: try match goal with Hi : Ok _ = Ok _ |- _ => injection Hi as <- end.
  all: eexists; split; [reflexivity|]; apply Hno; assumption.
Qed.


(** X19. A missing [lsvdisk] column leaves the mapping in place, for
    every controller: when the error line for a missing column is
    logged, the column is ['preferred_node_id'] or ['IO_group_id'], the
    volume had been mapped, the call raises [VolumeBackendAPIException]
    ('Missing volume attribute'), and it neither enters
    [terminate_connection] nor unmaps anything. *)
Theorem initialize_connection_missing_column {B} (helpers : Helpers B)
    (cfg : config) (v : volume) (c : connector) (b : B) (s : driver_state)
    r w' key :
  run (initialize_connection helpers cfg v c) b s = (r, w') ->
  In (missing_column key) (trace w') ->
  (key = "preferred_node_id" \/ key = "IO_group_id")
  /\ r = Raise (missing_attribute (vol_name v))
  /\ (exists h lun_id,
         In (ECall (map_vol_to_host_call (vol_name v) h
                      (storwize_svc_multihostmap_enabled cfg) (Ok lun_id)))
           (trace w'))
  /\ ~ In (enter_terminate v c) (trace w')
  /\ (forall vol arg a,
         ~ In (ECall (unmap_vol_from_host_call vol arg a)) (trace w')).
Proof.
  intros Hrun H. read_shape Hrun. follow.
  all: split; [auto|]; split; [reflexivity|].
  all: split; [eexists _, _; simpl; auto 20|].
  all: split; [intros Hn|intros vol arg a' Hn]; trace_cases.
Qed.
(** ** [do_setup]: the protocols it registers, and failures *)

(** The first loop registers 'iSCSI' in [self._state['enabled_protocols']]
    when it meets a configured node, and touches nothing else of the
    state. *)
Lemma check_nodes_protocols {B} (items : list (string * node))
    (w : world B) :
  exists w',
    check_nodes items w = (Ok (marked items, doomed items), w')
    /\ driver_protocol (drv w') = driver_protocol (drv w)
    /\ forall p,
         p ∈ state_enabled_protocols (drv w')
         <-> p ∈ state_enabled_protocols (drv w)
             \/ (p = "iSCSI"
                 /\ exists k n, In (k, n) items /\ supports_iscsi n = true).
Proof.
  revert w. induction items as [|[k n] rest IH]; intros w.
  - exists w. simpl. unfold ret. split; [reflexivity|].
    split; [reflexivity|]. intros p. split; [auto|].
    intros [H|(_ & k & n & [] & _)]. exact H.
  - simpl. unfold mark, supports_iscsi, add_enabled_protocol.
    destruct ((len_list (ipv4 n) || len_list (ipv6 n))
              && len_str (iscsi_name n)) eqn:E;
      unfold_monad; simpl.
    + rewrite len_list_snoc. simpl.
      match goal with |- context [check_nodes rest ?w0] =>
        destruct (IH w0) as (w' & -> & Hp & Hs) end.
      simpl in *. exists w'. split; [reflexivity|]. split; [exact Hp|].
      intros p. rewrite Hs, elem_of_union, elem_of_singleton. split.
      * intros [[->|H]|(-> & k' & n' & Hin & Hn')]; eauto 10.
      * intros [H|(-> & _)]; auto.
    + assert (Hrest : forall (w0 : world B),
                 drv w0 = drv w ->
                 exists w',
                   check_nodes rest w0 = (Ok (marked rest, doomed rest), w')
                   /\ driver_protocol (drv w') = driver_protocol (drv w)
                   /\ forall p,
                        p ∈ state_enabled_protocols (drv w')
                        <-> p ∈ state_enabled_protocols (drv w)
                            \/ (p = "iSCSI"
                                /\ exists k0 n0,
                                     ((k, n) = (k0, n0) \/ In (k0, n0) rest)
                                     /\ (len_list (ipv4 n0)
                                         || len_list (ipv6 n0))
                                        && len_str (iscsi_name n0) = true)).
      { intros w0 E0. destruct (IH w0) as (w' & Hc & Hp & Hs).
        exists w'. split; [exact Hc|]. rewrite <- E0.
        split; [exact Hp|]. intros p. rewrite Hs. unfold supports_iscsi.
        split.
        - intros [H|(-> & k' & n' & Hin & Hn')]; eauto 10.
        - intros [H|(-> & k' & n' & [[= <- <-]|Hin] & Hn')];
            [auto|congruence|eauto 10]. }
      destruct (len_list (enabled_protocols n)) eqn:E'; simpl.
      * destruct (Hrest w eq_refl) as (w' & -> & Hp & Hs).
        simpl. exists w'. auto.
      * match goal with |- context [check_nodes rest ?w0] =>
          destruct (Hrest w0 eq_refl) as (w' & -> & Hp & Hs) end.
        simpl. exists w'. auto.
Qed.

(** X20. The protocols [do_setup] registers: once the addresses are
    in, [self._state['enabled_protocols']] holds what the common setup
    left there, and 'iSCSI' besides exactly when some node of the
    inventory has an address and an iSCSI name -- whether or not the
    call then fails for want of a node.  [self.protocol] is what the
    common setup left. *)
Theorem do_setup_enabled_protocols {B} (helpers : Helpers B) (b : B)
    (s : driver_state) r w' s1 nodes0 nodes :
  run (do_setup helpers) b s = (r, w') ->
  In (ECall (common_do_setup_call (Ok s1))) (trace w') ->
  In (ECall (add_iscsi_ip_addrs_call nodes0 (Ok nodes))) (trace w') ->
  driver_protocol (drv w') = driver_protocol s1
  /\ forall p,
       p ∈ state_enabled_protocols (drv w')
       <-> p ∈ state_enabled_protocols s1
           \/ (p = "iSCSI"
               /\ exists k n, In (k, n) nodes /\ supports_iscsi n = true).
Proof.
  unfold do_setup, set_storage_nodes. unfold_monad. simpl.
  destruct (common_do_setup helpers _ b) as [[s2|e1] b1]; simpl.
  2:{ intros [= <- <-] H. simpl in H. intuition discriminate. }
  destruct (get_node_info helpers b1) as [[n0|e2] b2]; simpl.
  2:{ intros [= <- <-] _ H. simpl in H. intuition discriminate. }
  destruct (add_iscsi_ip_addrs helpers n0 b2) as [[n1|e3] b3]; simpl.
  2:{ intros [= <- <-] _ H. simpl in H. intuition discriminate. }
  match goal with |- context [check_nodes n1 ?w0] =>
    destruct (check_nodes_protocols n1 w0) as (w1 & Hc & Hp & Hs);
    destruct (check_nodes_run n1 w0) as (w1' & logs & Hc' & _ & _ & Ht & Hl)
  end.
  rewrite Hc in Hc'. injection Hc' as <-. rewrite Hc. simpl in *.
  assert (Hin : forall ev,
             is_call ev ->
             In ev (trace w1) ->
             ev = ECall (common_do_setup_call (Ok s2))
             \/ ev = ECall (get_node_info_call (Ok n0))
             \/ ev = ECall (add_iscsi_ip_addrs_call n0 (Ok n1))).
  { intros ev Hev H. rewrite Ht in H. simpl in H.
    destruct H as [H|[H|[H|H]]]; auto.
    rewrite Forall_forall in Hl. apply list_elem_of_In in H.
    apply Hl in H. tauto. }
  assert (Hfin : forall c lvl msg,
             In (ECall c) (trace w1 ++ [ELog lvl msg []]) ->
             In (ECall c) (trace w1)).
  { intros c lvl msg H. apply in_app_or in H as [H|[H|[]]]; [exact H|].
    discriminate H. }
  destruct (len_list (foldl _ _ _)); simpl; intros [= <- <-]; simpl.
  all: intros H1 H2.
  all: apply Hfin in H1; apply Hfin in H2.
  all: apply Hin in H1 as [H1|[H1|H1]]; [|discriminate H1..|exact I].
  all: apply Hin in H2 as [H2|[H2|H2]]; [discriminate H2..| |exact I].
  all: injection H1 as <-; injection H2 as <- <-.
  all: split; [exact Hp|exact Hs].
Qed.

(** X21. A collaborator that fails stops [do_setup] where it stands:
    when the common setup, [get_node_info] or [add_iscsi_ip_addrs]
    raises, [do_setup] raises the same exception, logs nothing, and the
    trace ends with the failed call. *)
Theorem do_setup_failure_propagates {B} (helpers : Helpers B) (b : B)
    (s : driver_state) r w' e :
  run (do_setup helpers) b s = (r, w') ->
  In (ECall (common_do_setup_call (Raise e))) (trace w')
  \/ In (ECall (get_node_info_call (Raise e))) (trace w')
  \/ (exists nodes0,
         In (ECall (add_iscsi_ip_addrs_call nodes0 (Raise e))) (trace w')) ->
  r = Raise e
  /\ Forall is_call (trace w')
  /\ exists c, last (trace w') = Some (ECall c)
               /\ (c = common_do_setup_call (Raise e)
                   \/ c = get_node_info_call (Raise e)
                   \/ exists nodes0,
                        c = add_iscsi_ip_addrs_call nodes0 (Raise e)).
Proof.
  unfold do_setup, set_storage_nodes. unfold_monad. simpl.
  destruct (common_do_setup helpers _ b) as [[s2|e1] b1]; simpl.
  2:{ intros [= <- <-] H. simpl in H.
      destruct H as [[H|[]]|[[H|[]]|(? & [H|[]])]]; try discriminate H.
      injection H as <-. split; [reflexivity|].
      split; [repeat constructor|]. eexists. split; [reflexivity|auto]. }
  destruct (get_node_info helpers b1) as [[n0|e2] b2]; simpl.
  2:{ intros [= <- <-] H. simpl in H.
      destruct H as [[H|[H|[]]]|[[H|[H|[]]]|(? & [H|[H|[]]])]];
        try discriminate H.
      injection H as <-. split; [reflexivity|].
      split; [repeat constructor|]. eexists. split; [reflexivity|auto]. }
  destruct (add_iscsi_ip_addrs helpers n0 b2) as [[n1|e3] b3]; simpl.
  2:{ intros [= <- <-] H. simpl in H.
      destruct H as [[H|[H|[H|[]]]]|[[H|[H|[H|[]]]]|(? & [H|[H|[H|[]]]])]];
        try discriminate H.
      injection H as _ <-. split; [reflexivity|].
      split; [repeat constructor|]. eexists. split; [reflexivity|eauto]. }
  match goal with |- context [check_nodes n1 ?w0] =>
    destruct (check_nodes_run n1 w0) as (w1 & logs & -> & _ & _ & Ht & Hl)
  end.
  simpl in *.
  assert (Hno : forall c lvl msg,
             In (ECall c) (trace w1 ++ [ELog lvl msg []]) ->
             c = common_do_setup_call (Ok s2)
             \/ c = get_node_info_call (Ok n0)
             \/ c = add_iscsi_ip_addrs_call n0 (Ok n1)).
  { intros c lvl msg H. apply in_app_or in H as [H|[H|[]]]; [|discriminate H].
    rewrite Ht in H. simpl in H.
    destruct H as [H|[H|[H|H]]]; try (injection H as <-; auto).
    rewrite Forall_forall in Hl. apply list_elem_of_In in H.
    apply Hl in H. destruct H. exact I. }
  destruct (len_list (foldl _ _ _)); simpl; intros [= <- <-]; simpl.
  all: intros [H|[H|(? & H)]].
  all: apply Hno in H as [H|[H|H]]; discriminate H.
Qed.
(** * The further properties, at concrete inputs *)

Ltac distinct_keys :=
  repeat (constructor; [simpl; intuition discriminate|]); constructor.

Lemma select_node_preferred_witness :
  exists m,
    select_node Scenario.iscsi_opts "1" "0" "V1" Scenario.world1
    = (Ok m, Scenario.world1)
    /\ id m = "1"
    /\ In m (filtered "iSCSI"
               (values (storage_nodes (drv Scenario.world1)))).
Proof.
  apply (select_node_preferred Scenario.iscsi_opts "1" "0" "V1"
           Scenario.world1).
  - exists (mark Scenario.N1). split; [vm_compute; tauto|reflexivity].
  - vm_compute. discriminate.
Defined.

Lemma do_setup_prunes_by_filter_witness :
  storage_nodes
    (drv (run (do_setup Sim.helpers) Scenario.controller0
            Scenario.state0).2)
  = with_protocol (marked [("1", Scenario.N1); ("2", Scenario.N2)]).
Proof.
  apply (do_setup_prunes_by_filter Sim.helpers Scenario.controller0
           Scenario.state0
           (run (do_setup Sim.helpers) Scenario.controller0
              Scenario.state0).1
           (run (do_setup Sim.helpers) Scenario.controller0
              Scenario.state0).2
           [("1", Sim.bare Scenario.N1); ("2", Sim.bare Scenario.N2)]
           [("1", Scenario.N1); ("2", Scenario.N2)]).
  - apply surjective_pairing.
  - vm_compute. tauto.
  - distinct_keys.
Defined.

Lemma do_setup_keeps_configured_nodes_witness :
  let out := run (do_setup Sim.helpers) Scenario.controller0
               Scenario.state0 in
  In ("1", append_protocol "iSCSI" Scenario.N1)
    (storage_nodes (drv out.2))
  /\ out.1 = Ok tt.
Proof.
  intros out.
  apply (do_setup_keeps_configured_nodes Sim.helpers Scenario.controller0
           Scenario.state0 out.1 out.2
           [("1", Sim.bare Scenario.N1); ("2", Sim.bare Scenario.N2)]
           [("1", Scenario.N1); ("2", Scenario.N2)] "1" Scenario.N1).
  - apply surjective_pairing.
  - vm_compute. tauto.
  - distinct_keys.
  - simpl. auto.
  - left. discriminate.
  - discriminate.
Defined.

Lemma terminate_connection_interactions_witness :
  let out := terminate_connection Sim.helpers Scenario.V1 Scenario.conn
               Scenario.world2 in
  drv out.2 = drv Scenario.world2
  /\ exists t,
       trace out.2
       = trace Scenario.world2
         ++ enter_terminate Scenario.V1 Scenario.conn :: t
       /\ Forall (is_teardown_event Scenario.V1 Scenario.conn) t.
Proof.
  intros out.
  apply (terminate_connection_interactions Sim.helpers Scenario.V1
           Scenario.conn Scenario.world2 out.1 out.2).
  apply surjective_pairing.
Defined.

Lemma terminate_connection_unknown_host_witness :
  let out := run (terminate_connection Sim.helpers Scenario.V1
                    Scenario.conn_host)
               Scenario.controller0 Scenario.state1 in
  out.1 = Raise (VolumeDriverException
                   "terminate_connection: Failed to get host name from connector.")
  /\ (forall vol arg a,
         ~ In (ECall (unmap_vol_from_host_call vol arg a)) (trace out.2))
  /\ (forall h d, ~ In (ECall (delete_host_call h d)) (trace out.2)).
Proof.
  intros out.
  apply (terminate_connection_unknown_host Sim.helpers Scenario.V1
           Scenario.conn_host Scenario.conn_host Scenario.controller0
           Scenario.state1 out.1 out.2).
  - apply surjective_pairing.
  - vm_compute. tauto.
Defined.

Lemma terminate_connection_unmap_argument_witness :
  let out := run (terminate_connection Sim.helpers Scenario.V1
                    Scenario.conn)
               Scenario.controller1 Scenario.state1 in
  "V1" = vol_name Scenario.V1
  /\ ((Scenario.conn !! "host" = None /\ @None string = None
       /\ forall c' a', ~ In (ECall (get_host_from_connector_call c' a'))
                          (trace out.2))
      \/ (is_Some (Scenario.conn !! "host")
          /\ exists h, None = Some h
                       /\ In (ECall (get_host_from_connector_call
                                       Scenario.conn (Ok (Some h))))
                            (trace out.2))).
Proof.
  intros out.
  apply (terminate_connection_unmap_argument Sim.helpers Scenario.V1
           Scenario.conn Scenario.controller1 Scenario.state1 out.1 out.2
           "V1" None (Ok (Some "host-iqn.test"))).
  - apply surjective_pairing.
  - vm_compute. tauto.
Defined.

Lemma terminate_connection_no_host_affected_witness :
  let out := run (terminate_connection Sim.helpers Scenario.V1
                    Scenario.conn)
               Scenario.controller0 Scenario.state1 in
  (exists i, out.1 = Ok i)
  /\ (forall h a,
         ~ In (ECall (check_host_mapped_vols_call h a)) (trace out.2))
  /\ (forall h d, ~ In (ECall (delete_host_call h d)) (trace out.2)).
Proof.
  intros out.
  apply (terminate_connection_no_host_affected Sim.helpers Scenario.V1
           Scenario.conn Scenario.controller0 Scenario.state1 out.1 out.2
           "V1" None None).
  - apply surjective_pairing.
  - vm_compute. tauto.
  - reflexivity.
Defined.

Lemma terminate_connection_deletes_only_orphans_witness :
  let out := run (terminate_connection Sim.helpers Scenario.V1
                    Scenario.conn)
               Scenario.controller1 Scenario.state1 in
  In (ECall (check_host_mapped_vols_call "host-iqn.test" (Ok [])))
    (trace out.2)
  /\ exists arg,
       In (ECall (unmap_vol_from_host_call (vol_name Scenario.V1) arg
                    (Ok (Some "host-iqn.test"))))
         (trace out.2).
Proof.
  intros out.
  apply (terminate_connection_deletes_only_orphans Sim.helpers Scenario.V1
           Scenario.conn Scenario.controller1 Scenario.state1 out.1 out.2
           "host-iqn.test" (Ok tt)).
  - apply surjective_pairing.
  - vm_compute. tauto.
Defined.

Lemma initialize_connection_state_witness :
  drv (run (initialize_connection Sim.helpers Scenario.chap_on Scenario.V1
              Scenario.conn)
         Scenario.controller0 Scenario.state1).2
  = Scenario.state1.
Proof.
  apply (initialize_connection_state Sim.helpers Scenario.chap_on
           Scenario.V1 Scenario.conn Scenario.controller0 Scenario.state1
           (run (initialize_connection Sim.helpers Scenario.chap_on
                   Scenario.V1 Scenario.conn)
              Scenario.controller0 Scenario.state1).1).
  apply surjective_pairing.
Defined.

Lemma initialize_connection_no_attributes_witness :
  let out := run (initialize_connection Sim.helpers Scenario.chap_on
                    Scenario.V2 Scenario.conn)
               Scenario.controller0 Scenario.state1 in
  out.1 = Raise (no_attributes (vol_name Scenario.V2))
  /\ (forall vol' h m a,
         ~ In (ECall (map_vol_to_host_call vol' h m a)) (trace out.2))
  /\ ~ In (enter_terminate Scenario.V2 Scenario.conn) (trace out.2).
Proof.
  intros out.
  apply (initialize_connection_no_attributes Sim.helpers Scenario.chap_on
           Scenario.V2 Scenario.conn Scenario.controller0 Scenario.state1
           out.1 out.2 "V2").
  - apply surjective_pairing.
  - vm_compute. tauto.
Defined.

Lemma initialize_connection_failure_after_mapping_witness :
  let out := run (initialize_connection Sim.helpers Scenario.chap_on
                    Cases.V3 Scenario.conn)
               Cases.controller_V3 Scenario.state1 in
  let e := VolumeBackendAPIException (no_node_in_group "7" "V3") in
  In (enter_terminate Cases.V3 Scenario.conn) (trace out.2)
  \/ (e = missing_attribute (vol_name Cases.V3)
      /\ exists key, In (missing_column key) (trace out.2)).
Proof.
  intros out e.
  assert (E : run (initialize_connection Sim.helpers Scenario.chap_on
                     Cases.V3 Scenario.conn)
                Cases.controller_V3 Scenario.state1
              = (Raise e, out.2))
    by (vm_compute; reflexivity).
  apply (initialize_connection_failure_after_mapping Sim.helpers
           Scenario.chap_on Cases.V3 Scenario.conn Cases.controller_V3
           Scenario.state1 e out.2 "V3" "host-iqn.test" true 0%Z E).
  vm_compute. tauto.
Defined.

Lemma initialize_connection_chap_enabled_witness :
  let out := run (initialize_connection Sim.helpers Scenario.chap_on
                    Scenario.V1 Scenario.conn)
               Scenario.controller0 Scenario.state1 in
  (@None string = None ->
   exists a, In (ECall (add_chap_secret_to_host_call "host-iqn.test" a))
               (trace out.2))
  /\ (forall h' a,
         In (ECall (add_chap_secret_to_host_call h' a)) (trace out.2) ->
         h' = "host-iqn.test" /\ @None string = None)
  /\ (forall i, out.1 = Ok i ->
      exists secret p,
        (None = Some secret
         \/ (@None string = None
             /\ In (ECall (add_chap_secret_to_host_call "host-iqn.test"
                             (Ok secret)))
                  (trace out.2)))
        /\ i = iscsi_info p
        /\ (secret <> "" ->
            exists initiator,
              Scenario.conn !! "initiator" = Some initiator
              /\ chap_attached initiator secret p)).
Proof.
  intros out.
  apply (initialize_connection_chap_enabled Sim.helpers Scenario.chap_on
           Scenario.V1 Scenario.conn Scenario.controller0 Scenario.state1
           out.1 out.2 "host-iqn.test" None).
  - reflexivity.
  - apply surjective_pairing.
  - vm_compute. tauto.
Defined.

Lemma initialize_connection_returns_witness :
  let out := run (initialize_connection Sim.helpers Scenario.chap_on
                    Scenario.V1 Scenario.conn)
               Scenario.controller0 Scenario.state1 in
  exists opts h lun_id p n a,
    In (ECall (get_vdisk_params_call (volume_type_id Scenario.V1)
                 (Ok opts)))
      (trace out.2)
    /\ In (ECall (map_vol_to_host_call (vol_name Scenario.V1) h
                    (storwize_svc_multihostmap_enabled Scenario.chap_on)
                    (Ok lun_id)))
         (trace out.2)
    /\ default ∅ (Scenario.returned out.1) = iscsi_info p
    /\ In n (filtered (protocol opts)
               (values (storage_nodes Scenario.state1)))
    /\ target_ipaddr n = Ok a
    /\ target_described Scenario.V1 lun_id n a p
    /\ last (trace out.2) = Some (leave_initialize Scenario.V1
                                    Scenario.conn p)
    /\ Forall (fun ev => ~ is_undo ev) (trace out.2)
    /\ ~ In (enter_terminate Scenario.V1 Scenario.conn) (trace out.2).
Proof.
  intros out.
  assert (E : run (initialize_connection Sim.helpers Scenario.chap_on
                     Scenario.V1 Scenario.conn)
                Scenario.controller0 Scenario.state1
              = (Ok (default ∅ (Scenario.returned out.1)), out.2))
    by (vm_compute; reflexivity).
  exact (initialize_connection_returns Sim.helpers Scenario.chap_on
           Scenario.V1 Scenario.conn Scenario.controller0 Scenario.state1
           _ _ E).
Defined.

Lemma initialize_connection_plain_witness :
  let out := run (initialize_connection Sim.helpers Scenario.chap_off
                    Scenario.V1 Scenario.conn)
               Scenario.controller0 Scenario.state1 in
  ~ In chap_mismatch_warning (trace out.2)
  /\ (forall h' a,
         ~ In (ECall (add_chap_secret_to_host_call h' a)) (trace out.2))
  /\ (forall i, out.1 = Ok i -> exists p, i = iscsi_info p /\ no_chap p).
Proof.
  intros out.
  apply (initialize_connection_plain Sim.helpers Scenario.chap_off
           Scenario.V1 Scenario.conn Scenario.controller0 Scenario.state1
           out.1 out.2 "host-iqn.test" None).
  - reflexivity.
  - apply surjective_pairing.
  - vm_compute. tauto.
  - reflexivity.
Defined.


Lemma initialize_connection_missing_column_witness :
  let out := run (initialize_connection Sim.helpers Scenario.chap_on
                    Scenario.V2 Scenario.conn)
               Scenario.controller_V2 Scenario.state1 in
  ("preferred_node_id" = "preferred_node_id"
   \/ "preferred_node_id" = "IO_group_id")
  /\ out.1 = Raise (missing_attribute (vol_name Scenario.V2))
  /\ (exists h lun_id,
         In (ECall (map_vol_to_host_call (vol_name Scenario.V2) h
                      (storwize_svc_multihostmap_enabled Scenario.chap_on)
                      (Ok lun_id)))
           (trace out.2))
  /\ ~ In (enter_terminate Scenario.V2 Scenario.conn) (trace out.2)
  /\ (forall vol arg a,
         ~ In (ECall (unmap_vol_from_host_call vol arg a)) (trace out.2)).
Proof.
  intros out.
  apply (initialize_connection_missing_column Sim.helpers Scenario.chap_on
           Scenario.V2 Scenario.conn Scenario.controller_V2 Scenario.state1
           out.1 out.2 "preferred_node_id").
  - apply surjective_pairing.
  - vm_compute. tauto.
Defined.

Lemma do_setup_enabled_protocols_witness :
  let out := run (do_setup Sim.helpers) Scenario.controller0
               Scenario.state0 in
  driver_protocol (drv out.2) = driver_protocol Cases.state_iscsi
  /\ forall p,
       p ∈ state_enabled_protocols (drv out.2)
       <-> p ∈ state_enabled_protocols Cases.state_iscsi
           \/ (p = "iSCSI"
               /\ exists k n,
                    In (k, n) [("1", Scenario.N1); ("2", Scenario.N2)]
                    /\ supports_iscsi n = true).
Proof.
  intros out.
  apply (do_setup_enabled_protocols Sim.helpers Scenario.controller0
           Scenario.state0 out.1 out.2 Cases.state_iscsi
           [("1", Sim.bare Scenario.N1); ("2", Sim.bare Scenario.N2)]
           [("1", Scenario.N1); ("2", Scenario.N2)]).
  - apply surjective_pairing.
  - vm_compute. tauto.
  - vm_compute. tauto.
Defined.

Lemma do_setup_failure_propagates_witness :
  let out := run (do_setup Cases.helpers_without_inventory)
               Scenario.controller0 Scenario.state0 in
  out.1 = Raise Cases.lsnode_failed
  /\ Forall is_call (trace out.2)
  /\ exists c, last (trace out.2) = Some (ECall c)
               /\ (c = common_do_setup_call (Raise Cases.lsnode_failed)
                   \/ c = get_node_info_call (Raise Cases.lsnode_failed)
                   \/ exists nodes0,
                        c = add_iscsi_ip_addrs_call nodes0
                              (Raise Cases.lsnode_failed)).
Proof.
  intros out.
  apply (do_setup_failure_propagates Cases.helpers_without_inventory
           Scenario.controller0 Scenario.state0 out.1 out.2
           Cases.lsnode_failed).
  - apply surjective_pairing.
  - right. left. vm_compute. tauto.
Defined.
(** ** [initialize_connection]: the order of the calls *)

(** Walk an explicit trace down to the occurrence that
    [tr = t1 ++ ev :: t2] speaks of. *)
Ltac locate H0 :=
  repeat match type of H0 with
         | _ :: _ = ?t1 ++ _ :: _ =>
             destruct t1 as [|? t1]; simpl in H0;
             [ simplify_eq
             | injection H0 as <- H0 ]
         end.

(** The occurrence is not in what is left of the trace. *)
Ltac absent H0 :=
  let Hin := fresh "Hin" in
  match type of H0 with
  | ?l = _ ++ ?ev :: _ =>
      assert (Hin : In ev l) by (rewrite H0; apply in_elt)
  end;
  clear H0; follow.

(** X10. The rollback is only ever run after a mapping was created:
    when [terminate_connection] is entered from
    [initialize_connection], the call fails, and before that entry
    [map_vol_to_host] had answered a LUN for this volume, with the
    configured multi-host flag. *)
Theorem initialize_connection_rollback_needs_mapping {B}
    (helpers : Helpers B) (cfg : config) (v : volume) (c : connector)
    (b : B) (s : driver_state) r w' t1 t2 :
  run (initialize_connection helpers cfg v c) b s = (r, w') ->
  trace w' = t1 ++ enter_terminate v c :: t2 ->
  (exists e, r = Raise e)
  /\ exists h lun,
       In (ECall (map_vol_to_host_call (vol_name v) h
                    (storwize_svc_multihostmap_enabled cfg) (Ok lun)))
         t1.
Proof.
  intros Hrun Hsplit.
  assert (H : In (enter_terminate v c) (trace w'))
    by (rewrite Hsplit; apply in_elt).
  revert Hsplit. read_shape Hrun. follow.
  all: intros Hsplit; simpl in Hsplit; locate Hsplit.
  all: first [ solve [split; [eauto|]; eexists _, _; simpl; auto 20]
             | absent Hsplit ].
Qed.

(** X12. The volume is mapped to the host the connector resolved to:
    every [map_vol_to_host] is for the call's volume, with the
    configured multi-host flag, and before it the host was found by
    [get_host_from_connector] or else created by [create_host], its
    CHAP secret was queried, and the volume's attributes were
    fetched. *)
Theorem initialize_connection_mapped_host {B} (helpers : Helpers B)
    (cfg : config) (v : volume) (c : connector) (b : B) (s : driver_state)
    r w' vol h m a t1 t2 :
  run (initialize_connection helpers cfg v c) b s = (r, w') ->
  trace w' = t1 ++ ECall (map_vol_to_host_call vol h m a) :: t2 ->
  vol = vol_name v
  /\ m = storwize_svc_multihostmap_enabled cfg
  /\ (In (ECall (get_host_from_connector_call c (Ok (Some h)))) t1
      \/ In (ECall (create_host_call c (Ok h))) t1)
  /\ (exists cs, In (ECall (get_chap_secret_for_host_call h (Ok cs))) t1)
  /\ exists attrs,
       In (ECall (get_vdisk_attributes_call (vol_name v) (Ok (Some attrs))))
         t1.
Proof.
  intros Hrun Hsplit.
  assert (H : In (ECall (map_vol_to_host_call vol h m a)) (trace w'))
    by (rewrite Hsplit; apply in_elt).
  revert Hsplit. read_shape Hrun. follow.
  all: intros Hsplit; simpl in Hsplit; locate Hsplit.
  all: first [ solve [split; [reflexivity|]; split; [reflexivity|];
                      split; [simpl; auto 10|];
                      split; eexists; simpl; auto 10]
             | absent Hsplit ].
Qed.

(** X13. A host is created only for a connector the controller does
    not know: every [create_host] is for the call's connector and comes
    after [get_host_from_connector] answered that no host matches; when
    it answers a host, the very next call queries that host's CHAP
    secret, and when it raises, the operation ends there with the same
    exception. *)
Theorem initialize_connection_creates_unknown_host {B}
    (helpers : Helpers B) (cfg : config) (v : volume) (c : connector)
    (b : B) (s : driver_state) r w' c' a t1 t2 :
  run (initialize_connection helpers cfg v c) b s = (r, w') ->
  trace w' = t1 ++ ECall (create_host_call c' a) :: t2 ->
  c' = c
  /\ In (ECall (get_host_from_connector_call c (Ok None))) t1
  /\ (forall h, a = Ok h ->
                exists cs t3,
                  t2 = ECall (get_chap_secret_for_host_call h cs) :: t3)
  /\ (forall e, a = Raise e -> r = Raise e /\ t2 = []).
Proof.
  intros Hrun Hsplit.
  assert (H : In (ECall (create_host_call c' a)) (trace w'))
    by (rewrite Hsplit; apply in_elt).
  revert Hsplit. read_shape Hrun. follow.
  all: intros Hsplit; simpl in Hsplit; locate Hsplit.
  all: try (absent Hsplit; fail).
  all: split; [reflexivity|]; split; [simpl; auto 10|].
  all: split; [intros h' [= <-]|intros e1 [= <-]; auto].
  all: match goal with
       | Hs : host_shape _ _ _ _ _ _ _ _ |- _ =>
           inversion Hs; clear Hs; subst
       end.
  all: eexists _, _; reflexivity.
Qed.




Lemma initialize_connection_rollback_needs_mapping_witness :
  let out := run (initialize_connection Sim.helpers Scenario.chap_on
                    Cases.V3 Scenario.conn)
               Cases.controller_V3 Scenario.state1 in
  (exists e, out.1 = Raise e)
  /\ exists h lun,
       In (ECall (map_vol_to_host_call (vol_name Cases.V3) h
                    (storwize_svc_multihostmap_enabled Scenario.chap_on)
                    (Ok lun)))
         (take 9 (trace out.2)).
Proof.
  intros out.
  apply (initialize_connection_rollback_needs_mapping Sim.helpers
           Scenario.chap_on Cases.V3 Scenario.conn Cases.controller_V3
           Scenario.state1 out.1 out.2
           (take 9 (trace out.2)) (drop 10 (trace out.2))).
  - apply surjective_pairing.
  - vm_compute. reflexivity.
Defined.

Lemma initialize_connection_mapped_host_witness :
  let out := run (initialize_connection Sim.helpers Scenario.chap_on
                    Scenario.V1 Scenario.conn)
               Scenario.controller0 Scenario.state1 in
  let t1 := take 7 (trace out.2) in
  "V1" = vol_name Scenario.V1
  /\ true = storwize_svc_multihostmap_enabled Scenario.chap_on
  /\ (In (ECall (get_host_from_connector_call Scenario.conn
                   (Ok (Some "host-iqn.test")))) t1
      \/ In (ECall (create_host_call Scenario.conn (Ok "host-iqn.test")))
           t1)
  /\ (exists cs,
         In (ECall (get_chap_secret_for_host_call "host-iqn.test" (Ok cs)))
           t1)
  /\ exists attrs,
       In (ECall (get_vdisk_attributes_call (vol_name Scenario.V1)
                    (Ok (Some attrs))))
         t1.
Proof.
  intros out t1.
  apply (initialize_connection_mapped_host Sim.helpers Scenario.chap_on
           Scenario.V1 Scenario.conn Scenario.controller0 Scenario.state1
           out.1 out.2 "V1" "host-iqn.test" true (Ok 0%Z)
           t1 (drop 8 (trace out.2))).
  - apply surjective_pairing.
  - vm_compute. reflexivity.
Defined.

Lemma initialize_connection_creates_unknown_host_witness :
  let out := run (initialize_connection Sim.helpers Scenario.chap_on
                    Scenario.V1 Scenario.conn)
               Scenario.controller0 Scenario.state1 in
  Scenario.conn = Scenario.conn
  /\ In (ECall (get_host_from_connector_call Scenario.conn (Ok None)))
       (take 3 (trace out.2))
  /\ (forall h, Ok "host-iqn.test" = Ok h ->
                exists cs t3,
                  drop 4 (trace out.2)
                  = ECall (get_chap_secret_for_host_call h cs) :: t3)
  /\ (forall e, Ok "host-iqn.test" = Raise e ->
                out.1 = Raise e /\ drop 4 (trace out.2) = []).
Proof.
  intros out.
  apply (initialize_connection_creates_unknown_host Sim.helpers
           Scenario.chap_on Scenario.V1 Scenario.conn Scenario.controller0
           Scenario.state1 out.1 out.2 Scenario.conn
           (Ok "host-iqn.test") (take 3 (trace out.2))
           (drop 4 (trace out.2))).
  - apply surjective_pairing.
  - vm_compute. reflexivity.
Defined.
